(** * Actor and Critic networks of [model.py]

    A shallow embedding of [hidden_init], [Actor] and [Critic].

    Conventions.
    - Tensor entries are real numbers; rounding of machine floats is not
      modelled.
    - A Python object reachable from [self] is addressed by a lens (a path of
      attribute names), so that in-place updates such as
      [self.fc1.weight.data.uniform_(...)] are updates of the one store the
      method runs in.
    - Methods run in a state-and-exception monad: an exception leaves the
      store as it was when it was raised. *)

From Stdlib Require Import Reals Lra Lia List ZArith Bool Arith.
Import ListNotations.
Open Scope R_scope.

Set Implicit Arguments.

(** ** The monad of methods *)

Inductive error : Type :=
| ShapeMismatch          (* RuntimeError: sizes of the operands do not agree *)
| SingleValuePerChannel. (* ValueError: Expected more than 1 value per channel when training *)

Definition M (S A : Type) : Type := S -> (error + A) * S.

Definition ret {S A} (a : A) : M S A := fun s => (inr a, s).

Definition bind {S A B} (m : M S A) (k : A -> M S B) : M S B :=
  fun s => match m s with
           | (inr a, s') => k a s'
           | (inl e, s') => (inl e, s')
           end.

Definition raise {S A} (e : error) : M S A := fun s => (inl e, s).

Definition gets {S A} (f : S -> A) : M S A := fun s => (inr (f s), s).

Definition modify {S} (f : S -> S) : M S unit := fun s => (inr tt, f s).

Declare Scope method_scope.
Delimit Scope method_scope with method.
Notation "x <- m ;; k" := (bind m (fun x => k))
  (at level 61, m at next level, right associativity) : method_scope.
Notation "' pat <- m ;; k" := (bind m (fun x => match x with pat => k end))
  (at level 61, pat pattern, m at next level, right associativity) : method_scope.
Notation "m ;; k" := (bind m (fun _ => k))
  (at level 61, right associativity) : method_scope.
Open Scope method_scope.

(** ** Attribute paths *)

Record Lens (S T : Type) : Type := mkLens {
  get : S -> T;
  set : T -> S -> S
}.

Definition here {S} : Lens S S := {| get s := s; set t _ := t |}.

Definition attr {S T U} (p : Lens S T) (q : Lens T U) : Lens S U :=
  {| get s := get q (get p s);
     set u s := set p (set q u (get p s)) s |}.

Notation "p .> q" := (attr p q) (at level 40, left associativity).

(** ** Tensors *)

(** A two-dimensional tensor, [size()] being [[dim0; dim1]], stored by rows. *)
Record Tensor : Type := mkTensor {
  dim0 : nat;
  dim1 : nat;
  data : list (list R)
}.

Definition size (t : Tensor) : list nat := [dim0 t; dim1 t].

Definition tensor_wf (t : Tensor) : Prop :=
  length (data t) = dim0 t /\ Forall (fun row => length row = dim1 t) (data t).

Definition data_ : Lens Tensor (list (list R)) :=
  {| get := data; set d t := mkTensor (dim0 t) (dim1 t) d |}.

(** ** Linear layers *)

(** [nn.Linear(in_features, out_features)]: the weight has shape
    [[out_features; in_features]], the bias has [out_features] entries. *)
Record Linear : Type := mkLinear {
  in_features : nat;
  out_features : nat;
  weight : Tensor;
  bias : list R
}.

Definition weight_ : Lens Linear Tensor :=
  {| get := weight;
     set w l := mkLinear (in_features l) (out_features l) w (bias l) |}.

Definition bias_ : Lens Linear (list R) :=
  {| get := bias;
     set b l := mkLinear (in_features l) (out_features l) (weight l) b |}.

Definition linear_wf (l : Linear) : Prop :=
  tensor_wf (weight l) /\
  dim0 (weight l) = out_features l /\
  dim1 (weight l) = in_features l /\
  length (bias l) = out_features l.

(** ** hidden_init *)

(** [[
def hidden_init(layer):
    fan_in = layer.weight.data.size()[0]
    lim = 1. / np.sqrt(fan_in)
    return (-lim, lim)
]]
    For a weight without rows the division is by zero; no entry is drawn
    with the bound then, and the value the model gives it is immaterial. *)
Definition hidden_init {S} (layer : Lens S Linear) : M S (R * R) :=
  fan_in <- gets (fun s => nth 0 (size (weight (get layer s))) 0%nat) ;;
  let lim := 1 / sqrt (INR fan_in) in
  ret (- lim, lim).

(** ** Library operations on tensors

    [torch] is not part of the repository; the operations [model.py] calls are
    modelled here from their description in the specification. *)

Fixpoint inner (x w : list R) : R :=
  match x, w with
  | a :: x', b :: w' => a * b + inner x' w'
  | _, _ => 0
  end.

(** One row of [input @ weight.T + bias]. *)
Definition affine (w : Tensor) (b : list R) (x : list R) : list R :=
  map (fun wb => inner x (fst wb) + snd wb) (combine (data w) b).

(** Modelled from the spec: [nn.Linear.forward] is library code; a layer is
    "an affine transform (weight matrix + bias vector) with fixed input/output
    dimensionality", and a feature dimension that does not match is a
    dimension-mismatch error. *)
Definition Linear_forward {S} (layer : Lens S Linear) (input : Tensor) : M S Tensor :=
  l <- gets (get layer) ;;
  if Nat.eqb (dim1 input) (dim1 (weight l))
  then ret (mkTensor (dim0 input) (dim0 (weight l))
                     (map (affine (weight l) (bias l)) (data input)))
  else raise ShapeMismatch.

(** Modelled from the spec: [F.relu] is library code; the rectifier, entry by
    entry. *)
Definition relu (t : Tensor) : Tensor :=
  mkTensor (dim0 t) (dim1 t) (map (map (Rmax 0)) (data t)).

(** Modelled from the spec: [torch.tanh] is library code; the hyperbolic
    tangent, entry by entry. *)
Definition torch_tanh (t : Tensor) : Tensor :=
  mkTensor (dim0 t) (dim1 t) (map (map tanh) (data t)).

(** Modelled from the spec: [torch.cat((a, b), dim=1)] is library code;
    concatenation "along the feature axis", a dimension-mismatch error when
    the batch sizes differ. *)
Definition cat_dim1 {S} (a b : Tensor) : M S Tensor :=
  if Nat.eqb (dim0 a) (dim0 b)
  then ret (mkTensor (dim0 a) (dim1 a + dim1 b)
                     (map (fun p => fst p ++ snd p) (combine (data a) (data b))))
  else raise ShapeMismatch.

(** ** Batch normalization *)

Record BatchNorm1d : Type := mkBatchNorm1d {
  num_features : nat;
  eps : R;
  momentum : R;
  bn_weight : list R;
  bn_bias : list R;
  running_mean : list R;
  running_var : list R;
  training : bool
}.

Definition set_running (rm rv : list R) (bn : BatchNorm1d) : BatchNorm1d :=
  mkBatchNorm1d (num_features bn) (eps bn) (momentum bn) (bn_weight bn)
                (bn_bias bn) rm rv (training bn).

Definition batchnorm_wf (bn : BatchNorm1d) : Prop :=
  length (bn_weight bn) = num_features bn /\
  length (bn_bias bn) = num_features bn /\
  length (running_mean bn) = num_features bn /\
  length (running_var bn) = num_features bn.

Definition column (j : nat) (rows : list (list R)) : list R :=
  map (fun row => nth j row 0) rows.

Definition total (l : list R) : R := fold_right Rplus 0 l.

Definition mean (l : list R) : R := total l / INR (length l).

Definition sq_dev (l : list R) : R :=
  total (map (fun x => (x - mean l) * (x - mean l)) l).

Definition var_biased (l : list R) : R := sq_dev l / INR (length l).

Definition var_unbiased (l : list R) : R := sq_dev l / INR (length l - 1).

Definition per_feature (bn : BatchNorm1d) (f : list R -> R) (input : Tensor) : list R :=
  map (fun j => f (column j (data input))) (seq 0 (num_features bn)).

Definition normalize (bn : BatchNorm1d) (mu var : list R) (row : list R) : list R :=
  map (fun j => (nth j row 0 - nth j mu 0) / sqrt (nth j var 0 + eps bn)
                * nth j (bn_weight bn) 0 + nth j (bn_bias bn) 0)
      (seq 0 (num_features bn)).

Definition blend (m : R) (old new : list R) : list R :=
  map (fun p => (1 - m) * fst p + m * snd p) (combine old new).

(** Modelled from the spec: [nn.BatchNorm1d.forward] is library code.
    "Training mode: batch statistics + running-average update; evaluation
    mode: frozen running statistics"; a batch of size 1 in training mode is
    "surfaced as an explicit error"; the running statistics are the only
    mutable state, "updated only in training-mode forward passes". *)
Definition BatchNorm1d_forward {S} (bn_ : Lens S BatchNorm1d) (input : Tensor) : M S Tensor :=
  bn <- gets (get bn_) ;;
  if training bn then
    if Nat.eqb (dim0 input) 1 then raise SingleValuePerChannel
    else if negb (Nat.eqb (dim1 input) (num_features bn)) then raise ShapeMismatch
    else
      let mu := per_feature bn mean input in
      let var := per_feature bn var_biased input in
      modify (fun s =>
        set bn_ (set_running
                   (blend (momentum bn) (running_mean bn) mu)
                   (blend (momentum bn) (running_var bn) (per_feature bn var_unbiased input))
                   bn) s) ;;
      ret (mkTensor (dim0 input) (dim1 input) (map (normalize bn mu var) (data input)))
  else
    if negb (Nat.eqb (dim1 input) (num_features bn)) then raise ShapeMismatch
    else ret (mkTensor (dim0 input) (dim1 input)
                       (map (normalize bn (running_mean bn) (running_var bn)) (data input))).

(** ** The random generator *)

(** The generator behind [torch.manual_seed] and [uniform_] is library code:
    any generator that can be seeded and that yields one unit sample at a
    time. *)
Class RNG : Type := {
  Generator : Type;
  manual_seed : Z -> Generator;
  random_unit : Generator -> R * Generator
}.

(** The samples of a generator lie in the unit interval. *)
Definition unit_range `{RNG} : Prop :=
  forall g, 0 <= fst (random_unit g) < 1.

Section Sampling.
Context {rng : RNG}.

(** The store of a method: the object it is called on and the process-wide
    default generator. *)
Record World (T : Type) : Type := mkWorld {
  self : T;
  default_generator : Generator
}.

Definition self_ {T} : Lens (World T) T :=
  {| get := @self T; set x w := mkWorld x (default_generator w) |}.

Definition default_generator_ {T} : Lens (World T) Generator :=
  {| get := @default_generator T; set g w := mkWorld (self w) g |}.

(** [torch.manual_seed(seed)] replaces the state of the default generator. *)
Definition torch_manual_seed {T} (seed : Z) : M (World T) unit :=
  modify (set default_generator_ (manual_seed seed)).

Fixpoint draw_row (a b : R) (n : nat) (g : Generator) : list R * Generator :=
  match n with
  | O => ([], g)
  | S n' =>
      let (u, g1) := random_unit g in
      let (row, g2) := draw_row a b n' g1 in
      ((a + (b - a) * u) :: row, g2)
  end.

Fixpoint draw_rows (a b : R) (rows cols : nat) (g : Generator)
  : list (list R) * Generator :=
  match rows with
  | O => ([], g)
  | S rows' =>
      let (row, g1) := draw_row a b cols g in
      let (rest, g2) := draw_rows a b rows' cols g1 in
      (row :: rest, g2)
  end.

(** Modelled from the spec: [Tensor.uniform_(a, b)] is library code; it
    "overwrites the layer's weight values in place" with uniform samples
    between the bounds [a] and [b], drawn from the default generator.  The
    library refuses [a > b]; every call of [model.py] has [a <= b]. *)
Definition uniform_ {T} (t : Lens (World T) Tensor) (a b : R) : M (World T) unit :=
  fun w =>
    let x := get t w in
    let (d, g) := draw_rows a b (dim0 x) (dim1 x) (default_generator w) in
    (inr tt, set default_generator_ g (set (t .> data_) d w)).

(** Modelled from the spec: the constructor [nn.Linear(in_features,
    out_features)] is library code; the weight of shape
    [[out_features; in_features]] and the bias receive their
    "library-default initialization, typically also uniform but separately
    derived" (here the library's bound [1 / sqrt(in_features)]). *)
Definition Linear_new {T} (in_f out_f : nat) : M (World T) Linear :=
  fun w =>
    let bound := 1 / sqrt (INR in_f) in
    let (wd, g1) := draw_rows (- bound) bound out_f in_f (default_generator w) in
    let (bd, g2) := draw_row (- bound) bound out_f g1 in
    (inr (mkLinear in_f out_f (mkTensor out_f in_f wd) bd),
     set default_generator_ g2 w).

(** Modelled from the spec: the constructor [nn.BatchNorm1d(num_features)]
    is library code; unit scale, zero shift, running mean 0 and variance 1,
    training mode. *)
Definition BatchNorm1d_new (n : nat) : BatchNorm1d :=
  mkBatchNorm1d n (1 / 100000) (1 / 10) (repeat 1 n) (repeat 0 n)
                (repeat 0 n) (repeat 1 n) true.

(** Runs the rest of a constructor on the object built so far. *)
Definition with_self {T A} (obj : T) (m : M (World T) A) : M (World unit) T :=
  fun w =>
    match m (mkWorld obj (default_generator w)) with
    | (inr _, w') => (inr (self w'), mkWorld tt (default_generator w'))
    | (inl e, w') => (inl e, mkWorld tt (default_generator w'))
    end.

End Sampling.

(** ** Actor *)

Module Actor.
Section Methods.
Context {rng : RNG}.

(** The attribute [seed] of the source holds a reference to the default
    generator, which is the [default_generator] of the store. *)
Record t : Type := mk {
  fc1 : Linear;
  fc2 : Linear;
  fc3 : Linear
}.

Definition fc1_ : Lens t Linear :=
  {| get := fc1; set l a := mk l (fc2 a) (fc3 a) |}.
Definition fc2_ : Lens t Linear :=
  {| get := fc2; set l a := mk (fc1 a) l (fc3 a) |}.
Definition fc3_ : Lens t Linear :=
  {| get := fc3; set l a := mk (fc1 a) (fc2 a) l |}.

(** [[
self.fc1.weight.data.uniform_( *hidden_init(self.fc1))
self.fc2.weight.data.uniform_( *hidden_init(self.fc2))
self.fc3.weight.data.uniform_(-3e-3, 3e-3)
]] *)
Definition reset_parameters : M (World t) unit :=
  ' (a, b) <- hidden_init (self_ .> fc1_) ;;
  uniform_ (self_ .> fc1_ .> weight_) a b ;;
  ' (a, b) <- hidden_init (self_ .> fc2_) ;;
  uniform_ (self_ .> fc2_ .> weight_) a b ;;
  uniform_ (self_ .> fc3_ .> weight_) (- (3 / 1000)) (3 / 1000).

(** [[
self.seed = torch.manual_seed(seed)
self.fc1 = nn.Linear(state_size, fc1_units)
self.fc2 = nn.Linear(fc1_units, fc2_units)
self.fc3 = nn.Linear(fc2_units, action_size)
self.reset_parameters()
]] *)
Definition __init__ (state_size action_size : nat) (seed : Z)
    (fc1_units fc2_units : nat) : M (World unit) t :=
  torch_manual_seed seed ;;
  l1 <- Linear_new state_size fc1_units ;;
  l2 <- Linear_new fc1_units fc2_units ;;
  l3 <- Linear_new fc2_units action_size ;;
  with_self (mk l1 l2 l3) reset_parameters.

(** [[
x = F.relu(self.fc1(state))
x = F.relu(self.fc2(x))
actions = torch.tanh(self.fc3(x))
return actions
]] *)
Definition forward (state : Tensor) : M t Tensor :=
  h <- Linear_forward fc1_ state ;;
  let x := relu h in
  h <- Linear_forward fc2_ x ;;
  let x := relu h in
  h <- Linear_forward fc3_ x ;;
  let actions := torch_tanh h in
  ret actions.

(** The shapes that the constructor gives to the three layers. *)
Definition built (state_size action_size fc1_units fc2_units : nat) (a : t) : Prop :=
  linear_wf (fc1 a) /\ in_features (fc1 a) = state_size /\ out_features (fc1 a) = fc1_units /\
  linear_wf (fc2 a) /\ in_features (fc2 a) = fc1_units /\ out_features (fc2 a) = fc2_units /\
  linear_wf (fc3 a) /\ in_features (fc3 a) = fc2_units /\ out_features (fc3 a) = action_size.

End Methods.
End Actor.

(** ** Critic *)

Module Critic.
Section Methods.
Context {rng : RNG}.

Record t : Type := mk {
  fcs1 : Linear;
  bn1 : BatchNorm1d;
  fc2 : Linear;
  fc3 : Linear
}.

Definition fcs1_ : Lens t Linear :=
  {| get := fcs1; set l c := mk l (bn1 c) (fc2 c) (fc3 c) |}.
Definition bn1_ : Lens t BatchNorm1d :=
  {| get := bn1; set b c := mk (fcs1 c) b (fc2 c) (fc3 c) |}.
Definition fc2_ : Lens t Linear :=
  {| get := fc2; set l c := mk (fcs1 c) (bn1 c) l (fc3 c) |}.
Definition fc3_ : Lens t Linear :=
  {| get := fc3; set l c := mk (fcs1 c) (bn1 c) (fc2 c) l |}.

(** [[
self.fcs1.weight.data.uniform_( *hidden_init(self.fcs1))
self.fc2.weight.data.uniform_( *hidden_init(self.fc2))
self.fc3.weight.data.uniform_(-3e-3, 3e-3)
]] *)
Definition reset_parameters : M (World t) unit :=
  ' (a, b) <- hidden_init (self_ .> fcs1_) ;;
  uniform_ (self_ .> fcs1_ .> weight_) a b ;;
  ' (a, b) <- hidden_init (self_ .> fc2_) ;;
  uniform_ (self_ .> fc2_ .> weight_) a b ;;
  uniform_ (self_ .> fc3_ .> weight_) (- (3 / 1000)) (3 / 1000).

(** [[
self.seed = torch.manual_seed(seed)
self.fcs1 = nn.Linear(state_size, fcs1_units)
self.bn1 = nn.BatchNorm1d(fcs1_units)
self.fc2 = nn.Linear(fcs1_units + action_size, fc2_units)
self.fc3 = nn.Linear(fc2_units, 1)
self.reset_parameters()
]] *)
Definition __init__ (state_size action_size : nat) (seed : Z)
    (fcs1_units fc2_units : nat) : M (World unit) t :=
  torch_manual_seed seed ;;
  l1 <- Linear_new state_size fcs1_units ;;
  let b1 := BatchNorm1d_new fcs1_units in
  l2 <- Linear_new (fcs1_units + action_size) fc2_units ;;
  l3 <- Linear_new fc2_units 1 ;;
  with_self (mk l1 b1 l2 l3) reset_parameters.

(** [[
xs = F.relu(self.bn1(self.fcs1(state)))
x = torch.cat((xs, action), dim=1)
x = F.relu(self.fc2(x))
Q_values = self.fc3(x)
return Q_values
]] *)
Definition forward (state action : Tensor) : M t Tensor :=
  h <- Linear_forward fcs1_ state ;;
  n <- BatchNorm1d_forward bn1_ h ;;
  let xs := relu n in
  x <- cat_dim1 xs action ;;
  h <- Linear_forward fc2_ x ;;
  let x := relu h in
  Q_values <- Linear_forward fc3_ x ;;
  ret Q_values.

(** The shapes that the constructor gives to the layers. *)
Definition built (state_size action_size fcs1_units fc2_units : nat) (c : t) : Prop :=
  linear_wf (fcs1 c) /\ in_features (fcs1 c) = state_size /\ out_features (fcs1 c) = fcs1_units /\
  batchnorm_wf (bn1 c) /\ num_features (bn1 c) = fcs1_units /\
  linear_wf (fc2 c) /\ in_features (fc2 c) = (fcs1_units + action_size)%nat /\
  out_features (fc2 c) = fc2_units /\
  linear_wf (fc3 c) /\ in_features (fc3 c) = fc2_units /\ out_features (fc3 c) = 1%nat.

End Methods.
End Critic.

(** ** Specification vocabulary *)

(** Every entry of a tensor lies between [lo] and [hi]. *)
Definition within (lo hi : R) (t : Tensor) : Prop :=
  Forall (Forall (fun x => lo <= x <= hi)) (data t).

(** The layer built by [nn.Linear(4, 1)], with every parameter at zero: its
    weight has shape [[1; 4]]. *)
Definition linear_4_1 : Linear :=
  mkLinear 4 1 (mkTensor 1 4 [[0; 0; 0; 0]]) [0].

(** The bound that [hidden_init] computes for a layer. *)
Definition lim (l : Linear) : R := 1 / sqrt (INR (dim0 (weight l))).

Section Refill.
Context {rng : RNG}.

(** The layer [l] after [l.weight.data.uniform_(a, b)] run with the default
    generator in state [g], and the state of the generator afterwards. *)
Definition refill (a b : R) (g : Generator) (l : Linear) : Linear :=
  set (weight_ .> data_)
      (fst (draw_rows a b (dim0 (weight l)) (dim1 (weight l)) g)) l.

Definition after_refill (a b : R) (g : Generator) (l : Linear) : Generator :=
  snd (draw_rows a b (dim0 (weight l)) (dim1 (weight l)) g).

End Refill.

(** The entries of the weight of [l] lie within the symmetric bound that
    [hidden_init] returns for [l] itself. *)
Definition within_own_bound (l : Linear) : Prop :=
  exists lo hi : R,
    fst (hidden_init here l) = inr (lo, hi) /\ lo = - hi /\ within lo hi (weight l).

(** [l'] is [l] with the values of its weight overwritten, and nothing else. *)
Definition only_weight_values_differ (l l' : Linear) : Prop :=
  exists d : list (list R), l' = set (weight_ .> data_) d l.

(** *** The forward passes, as the specification writes them *)

(** [fc(x)]: the affine transform of the layer, row by row. *)
Definition apply_layer (l : Linear) (x : Tensor) : Tensor :=
  mkTensor (dim0 x) (out_features l) (map (affine (weight l) (bias l)) (data x)).

(** [tanh(fc3(relu(fc2(relu(fc1(state))))))]. *)
Definition Actor_formula (a : Actor.t) (state : Tensor) : Tensor :=
  torch_tanh
    (apply_layer (Actor.fc3 a)
       (relu (apply_layer (Actor.fc2 a)
                (relu (apply_layer (Actor.fc1 a) state))))).

(** [batchnorm(x)]: batch statistics in training mode, the frozen running
    statistics in evaluation mode. *)
Definition batchnorm (bn : BatchNorm1d) (x : Tensor) : Tensor :=
  if training bn
  then mkTensor (dim0 x) (dim1 x)
         (map (normalize bn (per_feature bn mean x) (per_feature bn var_biased x))
              (data x))
  else mkTensor (dim0 x) (dim1 x)
         (map (normalize bn (running_mean bn) (running_var bn)) (data x)).

(** The normalization layer after a forward pass on [x]: the running averages
    move in training mode only. *)
Definition batchnorm_after (bn : BatchNorm1d) (x : Tensor) : BatchNorm1d :=
  if training bn
  then set_running
         (blend (momentum bn) (running_mean bn) (per_feature bn mean x))
         (blend (momentum bn) (running_var bn) (per_feature bn var_unbiased x))
         bn
  else bn.

(** [concat(xs, action)] along the feature axis. *)
Definition concat (a b : Tensor) : Tensor :=
  mkTensor (dim0 a) (dim1 a + dim1 b)
           (map (fun p => fst p ++ snd p) (combine (data a) (data b))).

(** [fc3(relu(fc2(concat(relu(batchnorm(fcs1(state))), action))))]. *)
Definition Critic_formula (c : Critic.t) (state action : Tensor) : Tensor :=
  let xs := relu (batchnorm (Critic.bn1 c) (apply_layer (Critic.fcs1 c) state)) in
  let x := concat xs action in
  let x := relu (apply_layer (Critic.fc2 c) x) in
  apply_layer (Critic.fc3 c) x.

(** The error that [Critic.forward] raises on inputs whose sizes do not fit
    a critic built for states of [state_size] features. *)
Definition Critic_error (state_size : nat) (c : Critic.t) (state : Tensor) : error :=
  if training (Critic.bn1 c) && Nat.eqb (dim0 state) 1 && Nat.eqb (dim1 state) state_size
  then SingleValuePerChannel
  else ShapeMismatch.

(** *** Concrete objects *)

(** A linear congruential generator: one generator among those that [RNG]
    admits. *)
Definition lcg_modulus : Z := 2147483648.

Definition lcg_next (x : Z) : Z := ((1103515245 * x + 12345) mod lcg_modulus)%Z.

Definition lcg : RNG :=
  {| Generator := Z;
     manual_seed := fun seed => (seed mod lcg_modulus)%Z;
     random_unit := fun x => (IZR (x mod lcg_modulus) / IZR lcg_modulus, lcg_next x) |}.

(** An actor for states of one feature and actions of one component, with
    one unit in each hidden layer. *)
Definition actor_1 : Actor.t :=
  Actor.mk (mkLinear 1 1 (mkTensor 1 1 [[1]]) [0])
           (mkLinear 1 1 (mkTensor 1 1 [[1]]) [0])
           (mkLinear 1 1 (mkTensor 1 1 [[1]]) [0]).

(** A critic of the same sizes, in training mode as constructed, and the
    same critic switched to evaluation mode. *)
Definition critic_1 : Critic.t :=
  Critic.mk (mkLinear 1 1 (mkTensor 1 1 [[1]]) [0])
            (BatchNorm1d_new 1)
            (mkLinear 2 1 (mkTensor 1 2 [[1; 1]]) [0])
            (mkLinear 1 1 (mkTensor 1 1 [[1]]) [0]).

Definition critic_1_eval : Critic.t :=
  Critic.mk (Critic.fcs1 critic_1)
            (mkBatchNorm1d 1 (1 / 100000) (1 / 10) [1] [0] [0] [1] false)
            (Critic.fc2 critic_1) (Critic.fc3 critic_1).

(** Batches of one and of two samples of one feature. *)
Definition batch_1 : Tensor := mkTensor 1 1 [[1]].
Definition batch_2 : Tensor := mkTensor 2 1 [[1]; [2]].

(** *** Vocabulary of the further properties *)


(** The batch of one sample made of row [i] of [t]. *)
Definition row_of (t : Tensor) (i : nat) : Tensor :=
  mkTensor 1 (dim1 t) [nth i (data t) []].

(** [c'] is [c] but for the running mean and the running variance of its
    normalization layer, which keep their lengths when [c] is well formed;
    in evaluation mode [c'] is [c]. *)
Definition only_running_statistics_differ (c c' : Critic.t) : Prop :=
  Critic.fcs1 c' = Critic.fcs1 c /\
  Critic.fc2 c' = Critic.fc2 c /\
  Critic.fc3 c' = Critic.fc3 c /\
  (exists rm rv : list R,
      Critic.bn1 c' = set_running rm rv (Critic.bn1 c) /\
      (batchnorm_wf (Critic.bn1 c) ->
       length rm = num_features (Critic.bn1 c) /\
       length rv = num_features (Critic.bn1 c))) /\
  (training (Critic.bn1 c) = false -> c' = c).

(** A method relates every store to the store it leaves, whether it returns
    or raises. *)
Definition stays {S A : Type} (R : S -> S -> Prop) (m : M S A) : Prop :=
  forall s : S, R s (snd (m s)).

Section Draws.
Context {rng : RNG}.


End Draws.

(** * Properties *)

(** ** The monad *)

Lemma bind_ok {S A B} (m : M S A) (k : A -> M S B) s a s' :
  m s = (inr a, s') -> bind m k s = k a s'.
Proof. intros E. unfold bind. now rewrite E. Qed.

Lemma bind_err {S A B} (m : M S A) (k : A -> M S B) s e s' :
  m s = (inl e, s') -> bind m k s = (inl e, s').
Proof. intros E. unfold bind. now rewrite E. Qed.

(** ** hidden_init *)

Lemma hidden_init_run {S} (layer : Lens S Linear) (s : S) :
  hidden_init layer s =
  (inr (- (1 / sqrt (INR (dim0 (weight (get layer s))))),
        1 / sqrt (INR (dim0 (weight (get layer s))))), s).
Proof. reflexivity. Qed.

Lemma sqrt_4 : sqrt 4 = 2.
Proof. replace 4 with (2 * 2) by lra. apply sqrt_square. lra. Qed.

(** C1. [hidden_init] takes the first dimension of the weight, which for the
    weight of [nn.Linear(4, 1)], of shape [[1; 4]], is [out_features = 1]:
    the bound returned is [(-1, 1)], and not [(-1/2, 1/2)], the bound
    [1 / sqrt(in_features)] of the four input features. *)
Theorem hidden_init_takes_out_features :
  linear_wf linear_4_1 /\
  fst (hidden_init here linear_4_1) = inr (- 1, 1) /\
  1 / sqrt (INR (in_features linear_4_1)) = 1 / 2 /\
  fst (hidden_init here linear_4_1)
    <> inr (- (1 / sqrt (INR (in_features linear_4_1))),
            1 / sqrt (INR (in_features linear_4_1))).
Proof.
  assert (E1 : fst (hidden_init here linear_4_1) = inr (- 1, 1)).
  { rewrite hidden_init_run. cbn [fst get here linear_4_1 weight dim0 INR].
    rewrite sqrt_1. do 2 f_equal; lra. }
  assert (E4 : 1 / sqrt (INR (in_features linear_4_1)) = 1 / 2).
  { cbn [in_features linear_4_1]. replace (INR 4) with 4 by (simpl; lra).
    now rewrite sqrt_4. }
  split; [| split; [exact E1 | split; [exact E4 |]]].
  - unfold linear_wf, tensor_wf. cbn. repeat split; auto.
  - rewrite E1, E4. intros C. injection C as C1 C2. lra.
Qed.

(** ** Sampling *)

Section SamplingFacts.
Context {rng : RNG}.

Lemma uniform_run {T} (t : Lens (World T) Tensor) (a b : R) (w : World T) :
  uniform_ t a b w =
  (inr tt,
   set default_generator_
       (snd (draw_rows a b (dim0 (get t w)) (dim1 (get t w)) (default_generator w)))
       (set (t .> data_)
            (fst (draw_rows a b (dim0 (get t w)) (dim1 (get t w)) (default_generator w)))
            w)).
Proof.
  unfold uniform_.
  destruct (draw_rows a b (dim0 (get t w)) (dim1 (get t w)) (default_generator w)).
  reflexivity.
Qed.

Lemma draw_row_length (a b : R) (n : nat) (g : Generator) :
  length (fst (draw_row a b n g)) = n.
Proof.
  revert g. induction n as [| n IH]; intros g; simpl; [reflexivity |].
  destruct (random_unit g) as [u g1]. specialize (IH g1).
  destruct (draw_row a b n g1) as [row g2]. simpl in *. now rewrite IH.
Qed.

Lemma draw_rows_shape (a b : R) (rows cols : nat) (g : Generator) :
  length (fst (draw_rows a b rows cols g)) = rows /\
  Forall (fun row => length row = cols) (fst (draw_rows a b rows cols g)).
Proof.
  revert g. induction rows as [| rows IH]; intros g; simpl.
  - split; [reflexivity | constructor].
  - pose proof (draw_row_length a b cols g) as L.
    destruct (draw_row a b cols g) as [row g1]. specialize (IH g1).
    destruct (draw_rows a b rows cols g1) as [rest g2]. simpl in *.
    destruct IH as [IH1 IH2]. split; [now rewrite IH1 | now constructor].
Qed.

Lemma draw_row_within (a b : R) (n : nat) (g : Generator) :
  unit_range -> a <= b ->
  Forall (fun x => a <= x <= b) (fst (draw_row a b n g)).
Proof.
  intros U Hab. revert g. induction n as [| n IH]; intros g; simpl; [constructor |].
  pose proof (U g) as Hu. destruct (random_unit g) as [u g1]. specialize (IH g1).
  destruct (draw_row a b n g1) as [row g2]. simpl in *.
  constructor; [nra | exact IH].
Qed.

Lemma draw_rows_within (a b : R) (rows cols : nat) (g : Generator) :
  unit_range -> a <= b ->
  Forall (Forall (fun x => a <= x <= b)) (fst (draw_rows a b rows cols g)).
Proof.
  intros U Hab. revert g. induction rows as [| rows IH]; intros g; simpl; [constructor |].
  pose proof (draw_row_within cols g U Hab) as Hr.
  destruct (draw_row a b cols g) as [row g1]. specialize (IH g1).
  destruct (draw_rows a b rows cols g1) as [rest g2]. simpl in *.
  now constructor.
Qed.

Lemma lim_symmetric (n : nat) : - (1 / sqrt (INR n)) <= 1 / sqrt (INR n).
Proof.
  assert (0 <= 1 / sqrt (INR n)); [| lra].
  destruct (Req_dec (sqrt (INR n)) 0) as [E | NE].
  - rewrite E. unfold Rdiv. rewrite Rinv_0. lra.
  - apply Rlt_le, Rdiv_lt_0_compat; [lra |].
    pose proof (sqrt_pos (INR n)). lra.
Qed.

End SamplingFacts.

(** ** reset_parameters, step by step *)

Section ResetFacts.
Context {rng : RNG}.

Ltac run_reset :=
  repeat first
    [ rewrite (bind_ok _ _ _ (hidden_init_run _ _))
    | rewrite (bind_ok _ _ _ (uniform_run _ _ _ _)) ];
  rewrite uniform_run; reflexivity.

(** The three weights are redrawn one after the other from the default
    generator; nothing else of the store changes. *)
Lemma Actor_reset_parameters_run (w : World Actor.t) :
  let a := self w in
  let g0 := default_generator w in
  let g1 := after_refill (- lim (Actor.fc1 a)) (lim (Actor.fc1 a)) g0 (Actor.fc1 a) in
  let g2 := after_refill (- lim (Actor.fc2 a)) (lim (Actor.fc2 a)) g1 (Actor.fc2 a) in
  let g3 := after_refill (- (3 / 1000)) (3 / 1000) g2 (Actor.fc3 a) in
  Actor.reset_parameters w =
  (inr tt,
   mkWorld
     (Actor.mk
        (refill (- lim (Actor.fc1 a)) (lim (Actor.fc1 a)) g0 (Actor.fc1 a))
        (refill (- lim (Actor.fc2 a)) (lim (Actor.fc2 a)) g1 (Actor.fc2 a))
        (refill (- (3 / 1000)) (3 / 1000) g2 (Actor.fc3 a)))
     g3).
Proof. cbv zeta. unfold Actor.reset_parameters. run_reset. Qed.

Lemma Critic_reset_parameters_run (w : World Critic.t) :
  let c := self w in
  let g0 := default_generator w in
  let g1 := after_refill (- lim (Critic.fcs1 c)) (lim (Critic.fcs1 c)) g0 (Critic.fcs1 c) in
  let g2 := after_refill (- lim (Critic.fc2 c)) (lim (Critic.fc2 c)) g1 (Critic.fc2 c) in
  let g3 := after_refill (- (3 / 1000)) (3 / 1000) g2 (Critic.fc3 c) in
  Critic.reset_parameters w =
  (inr tt,
   mkWorld
     (Critic.mk
        (refill (- lim (Critic.fcs1 c)) (lim (Critic.fcs1 c)) g0 (Critic.fcs1 c))
        (Critic.bn1 c)
        (refill (- lim (Critic.fc2 c)) (lim (Critic.fc2 c)) g1 (Critic.fc2 c))
        (refill (- (3 / 1000)) (3 / 1000) g2 (Critic.fc3 c)))
     g3).
Proof. cbv zeta. unfold Critic.reset_parameters. run_reset. Qed.

Lemma refill_bias (a b : R) (g : Generator) (l : Linear) :
  bias (refill a b g l) = bias l.
Proof. reflexivity. Qed.

Lemma refill_shape (a b : R) (g : Generator) (l : Linear) :
  in_features (refill a b g l) = in_features l /\
  out_features (refill a b g l) = out_features l /\
  dim0 (weight (refill a b g l)) = dim0 (weight l) /\
  dim1 (weight (refill a b g l)) = dim1 (weight l).
Proof. repeat split. Qed.

Lemma refill_lim (a b : R) (g : Generator) (l : Linear) :
  lim (refill a b g l) = lim l.
Proof. reflexivity. Qed.

Lemma refill_tensor_wf (a b : R) (g : Generator) (l : Linear) :
  tensor_wf (weight (refill a b g l)).
Proof. apply draw_rows_shape. Qed.

Lemma refill_wf (a b : R) (g : Generator) (l : Linear) :
  linear_wf l -> linear_wf (refill a b g l).
Proof.
  intros (_ & H0 & H1 & Hb). split; [apply refill_tensor_wf |].
  repeat split; assumption.
Qed.

Lemma refill_within (a b : R) (g : Generator) (l : Linear) :
  unit_range -> a <= b -> within a b (weight (refill a b g l)).
Proof. intros U Hab. apply draw_rows_within; assumption. Qed.

End ResetFacts.

(** ** The initialization of the weights *)

Section Initialization.
Context {rng : RNG}.

Lemma refill_only_weight (a b : R) (g : Generator) (l : Linear) :
  only_weight_values_differ l (refill a b g l).
Proof. eexists. reflexivity. Qed.

Lemma refill_own_bound (g : Generator) (l : Linear) :
  unit_range -> within_own_bound (refill (- lim l) (lim l) g l).
Proof.
  intros U. exists (- lim l), (lim l). split; [| split].
  - rewrite hidden_init_run. reflexivity.
  - reflexivity.
  - apply refill_within; [exact U | apply lim_symmetric].
Qed.

(** C10. [hidden_init] leaves the store it runs in as it finds it, so the
    weights and the bias of the layer (and everything else) are unchanged; it
    returns normally and its result is computed from the first dimension of
    the weight alone.  The weights are overwritten by its callers: after
    [reset_parameters] the weights of the hidden layers hold the samples drawn
    by [uniform_], whatever they held before. *)
Theorem hidden_init_mutates_nothing :
  (forall (S : Type) (layer : Lens S Linear) (s : S),
      snd (hidden_init layer s) = s /\
      get layer (snd (hidden_init layer s)) = get layer s /\
      fst (hidden_init layer s) =
        inr (- (1 / sqrt (INR (dim0 (weight (get layer s))))),
             1 / sqrt (INR (dim0 (weight (get layer s)))))) /\
  (forall w : World Actor.t,
      let a := self w in
      let a' := self (snd (Actor.reset_parameters w)) in
      data (weight (Actor.fc1 a')) =
        fst (draw_rows (- lim (Actor.fc1 a)) (lim (Actor.fc1 a))
               (dim0 (weight (Actor.fc1 a))) (dim1 (weight (Actor.fc1 a)))
               (default_generator w))) /\
  (forall w : World Critic.t,
      let c := self w in
      let c' := self (snd (Critic.reset_parameters w)) in
      data (weight (Critic.fcs1 c')) =
        fst (draw_rows (- lim (Critic.fcs1 c)) (lim (Critic.fcs1 c))
               (dim0 (weight (Critic.fcs1 c))) (dim1 (weight (Critic.fcs1 c)))
               (default_generator w))).
Proof.
  split; [| split].
  - intros S layer s. rewrite hidden_init_run. repeat split.
  - intros w. cbv zeta. rewrite Actor_reset_parameters_run. reflexivity.
  - intros w. cbv zeta. rewrite Critic_reset_parameters_run. reflexivity.
Qed.

(** C9. [reset_parameters] returns normally and overwrites the values of the
    three weights only: the bias of every layer of an Actor, and the bias of
    every layer of a Critic, the normalization layer included, is what it was
    before the call. *)
Theorem reset_parameters_keeps_biases :
  (forall w : World Actor.t,
      let a := self w in
      let a' := self (snd (Actor.reset_parameters w)) in
      fst (Actor.reset_parameters w) = inr tt /\
      bias (Actor.fc1 a') = bias (Actor.fc1 a) /\
      bias (Actor.fc2 a') = bias (Actor.fc2 a) /\
      bias (Actor.fc3 a') = bias (Actor.fc3 a) /\
      only_weight_values_differ (Actor.fc1 a) (Actor.fc1 a') /\
      only_weight_values_differ (Actor.fc2 a) (Actor.fc2 a') /\
      only_weight_values_differ (Actor.fc3 a) (Actor.fc3 a')) /\
  (forall w : World Critic.t,
      let c := self w in
      let c' := self (snd (Critic.reset_parameters w)) in
      fst (Critic.reset_parameters w) = inr tt /\
      bias (Critic.fcs1 c') = bias (Critic.fcs1 c) /\
      bias (Critic.fc2 c') = bias (Critic.fc2 c) /\
      bias (Critic.fc3 c') = bias (Critic.fc3 c) /\
      Critic.bn1 c' = Critic.bn1 c /\
      only_weight_values_differ (Critic.fcs1 c) (Critic.fcs1 c') /\
      only_weight_values_differ (Critic.fc2 c) (Critic.fc2 c') /\
      only_weight_values_differ (Critic.fc3 c) (Critic.fc3 c')).
Proof.
  split; intros w; cbv zeta.
  - rewrite Actor_reset_parameters_run. cbn [fst snd self Actor.fc1 Actor.fc2 Actor.fc3].
    repeat split; apply refill_only_weight.
  - rewrite Critic_reset_parameters_run.
    cbn [fst snd self Critic.fcs1 Critic.fc2 Critic.fc3 Critic.bn1].
    repeat split; apply refill_only_weight.
Qed.

(** C4. With a generator whose samples lie in the unit interval, after
    [reset_parameters] every entry of the [fc3] weight lies between -0.003
    and 0.003, and every entry of the weight of each hidden layer lies within
    the symmetric bound that [hidden_init] returns for that layer; each
    weight keeps its full shape. *)
Theorem reset_parameters_weights_within_bounds :
  unit_range ->
  (forall w : World Actor.t,
      let a' := self (snd (Actor.reset_parameters w)) in
      within (- (3 / 1000)) (3 / 1000) (weight (Actor.fc3 a')) /\
      within_own_bound (Actor.fc1 a') /\
      within_own_bound (Actor.fc2 a') /\
      tensor_wf (weight (Actor.fc1 a')) /\
      tensor_wf (weight (Actor.fc2 a')) /\
      tensor_wf (weight (Actor.fc3 a'))) /\
  (forall w : World Critic.t,
      let c' := self (snd (Critic.reset_parameters w)) in
      within (- (3 / 1000)) (3 / 1000) (weight (Critic.fc3 c')) /\
      within_own_bound (Critic.fcs1 c') /\
      within_own_bound (Critic.fc2 c') /\
      tensor_wf (weight (Critic.fcs1 c')) /\
      tensor_wf (weight (Critic.fc2 c')) /\
      tensor_wf (weight (Critic.fc3 c'))).
Proof.
  intros U. split; intros w; cbv zeta.
  - rewrite Actor_reset_parameters_run. cbn [snd self Actor.fc1 Actor.fc2 Actor.fc3].
    split; [apply refill_within; [exact U | lra] |].
    split; [apply refill_own_bound, U |].
    split; [apply refill_own_bound, U |].
    repeat split; apply refill_tensor_wf.
  - rewrite Critic_reset_parameters_run.
    cbn [snd self Critic.fcs1 Critic.fc2 Critic.fc3].
    split; [apply refill_within; [exact U | lra] |].
    split; [apply refill_own_bound, U |].
    split; [apply refill_own_bound, U |].
    repeat split; apply refill_tensor_wf.
Qed.

End Initialization.

(** ** Construction *)

Section Construction.
Context {rng : RNG}.

Lemma torch_manual_seed_run {T} (seed : Z) (w : World T) :
  torch_manual_seed seed w = (inr tt, mkWorld (self w) (manual_seed seed)).
Proof. reflexivity. Qed.

Lemma Linear_new_run {T} (in_f out_f : nat) (w : World T) :
  let bound := 1 / sqrt (INR in_f) in
  let g1 := snd (draw_rows (- bound) bound out_f in_f (default_generator w)) in
  Linear_new in_f out_f w =
  (inr (mkLinear in_f out_f
          (mkTensor out_f in_f
             (fst (draw_rows (- bound) bound out_f in_f (default_generator w))))
          (fst (draw_row (- bound) bound out_f g1))),
   mkWorld (self w) (snd (draw_row (- bound) bound out_f g1))).
Proof.
  cbv zeta. unfold Linear_new.
  destruct (draw_rows _ _ out_f in_f (default_generator w)) as [wd g1]. cbn [fst snd].
  destruct (draw_row _ _ out_f g1) as [bd g2]. reflexivity.
Qed.

Lemma Linear_new_wf {T} (in_f out_f : nat) (w : World T) :
  exists l w', Linear_new in_f out_f w = (inr l, w') /\
               self w' = self w /\
               linear_wf l /\ in_features l = in_f /\ out_features l = out_f.
Proof.
  pose proof (Linear_new_run in_f out_f w) as E. cbv zeta in E.
  eexists. eexists. split; [exact E |]. split; [reflexivity |].
  split; [| split; reflexivity].
  split; [apply draw_rows_shape |]. repeat split. apply draw_row_length.
Qed.

(** The world in which the constructors run after [torch.manual_seed(seed)]
    does not remember the state of the generator before the call. *)
Lemma seeded_world (seed : Z) (w : World unit) :
  torch_manual_seed seed w = (inr tt, mkWorld tt (manual_seed seed)).
Proof. destruct w as [[] g]. reflexivity. Qed.

(** C6. Constructing an Actor succeeds, and two constructions with the same
    sizes and the same seed give the same Actor, equal in every weight and
    every bias of every layer, whatever the state of the default generator
    before each construction; the generator is left in the same state too. *)
Theorem Actor_init_deterministic
    (state_size action_size : nat) (seed : Z) (fc1_units fc2_units : nat)
    (w1 w2 : World unit) :
  Actor.__init__ state_size action_size seed fc1_units fc2_units w1 =
  Actor.__init__ state_size action_size seed fc1_units fc2_units w2 /\
  exists a : Actor.t,
    fst (Actor.__init__ state_size action_size seed fc1_units fc2_units w1) = inr a /\
    fst (Actor.__init__ state_size action_size seed fc1_units fc2_units w2) = inr a /\
    Actor.built state_size action_size fc1_units fc2_units a.
Proof.
  assert (E : forall w : World unit,
             Actor.__init__ state_size action_size seed fc1_units fc2_units w =
             Actor.__init__ state_size action_size seed fc1_units fc2_units
                            (mkWorld tt (manual_seed seed))).
  { intros w. unfold Actor.__init__.
    rewrite (bind_ok _ _ _ (seeded_world seed w)).
    rewrite (bind_ok _ _ _ (seeded_world seed _)). reflexivity. }
  split; [now rewrite (E w1), (E w2) |].
  rewrite (E w1), (E w2). unfold Actor.__init__.
  rewrite (bind_ok _ _ _ (seeded_world seed _)).
  destruct (Linear_new_wf state_size fc1_units (mkWorld tt (manual_seed seed)))
    as (l1 & v1 & E1 & _ & W1 & I1 & O1).
  rewrite (bind_ok _ _ _ E1).
  destruct (Linear_new_wf fc1_units fc2_units v1) as (l2 & v2 & E2 & _ & W2 & I2 & O2).
  rewrite (bind_ok _ _ _ E2).
  destruct (Linear_new_wf fc2_units action_size v2) as (l3 & v3 & E3 & _ & W3 & I3 & O3).
  rewrite (bind_ok _ _ _ E3).
  unfold with_self. rewrite Actor_reset_parameters_run. cbn [fst self default_generator].
  eexists. split; [reflexivity |]. split; [reflexivity |].
  unfold Actor.built. cbn [Actor.fc1 Actor.fc2 Actor.fc3].
  repeat split;
    first [ apply refill_tensor_wf | apply refill_wf; assumption
          | assumption
          | apply W1 | apply W2 | apply W3 ].
Qed.

(** Constructing a Critic succeeds too, with the shapes that
    [Critic.forward] relies on. *)
Lemma Critic_init_built
    (state_size action_size : nat) (seed : Z) (fcs1_units fc2_units : nat)
    (w : World unit) :
  exists c : Critic.t,
    fst (Critic.__init__ state_size action_size seed fcs1_units fc2_units w) = inr c /\
    Critic.built state_size action_size fcs1_units fc2_units c /\
    training (Critic.bn1 c) = true.
Proof.
  unfold Critic.__init__.
  rewrite (bind_ok _ _ _ (seeded_world seed w)).
  destruct (Linear_new_wf state_size fcs1_units (mkWorld tt (manual_seed seed)))
    as (l1 & v1 & E1 & _ & W1 & I1 & O1).
  rewrite (bind_ok _ _ _ E1).
  destruct (Linear_new_wf (fcs1_units + action_size) fc2_units v1)
    as (l2 & v2 & E2 & _ & W2 & I2 & O2).
  rewrite (bind_ok _ _ _ E2).
  destruct (Linear_new_wf fc2_units 1 v2) as (l3 & v3 & E3 & _ & W3 & I3 & O3).
  rewrite (bind_ok _ _ _ E3).
  unfold with_self. rewrite Critic_reset_parameters_run. cbn [fst self default_generator].
  eexists. split; [reflexivity |]. split; [| reflexivity].
  unfold Critic.built, batchnorm_wf.
  cbn [Critic.fcs1 Critic.bn1 Critic.fc2 Critic.fc3 BatchNorm1d_new num_features
       bn_weight bn_bias running_mean running_var].
  rewrite !repeat_length.
  repeat split;
    first [ apply refill_tensor_wf | apply refill_wf; assumption
          | assumption
          | apply W1 | apply W2 | apply W3 ].
Qed.

End Construction.

(** ** Shapes *)

Lemma affine_length (w : Tensor) (b x : list R) :
  length (affine w b x) = Nat.min (length (data w)) (length b).
Proof. unfold affine. now rewrite length_map, length_combine. Qed.

Lemma apply_layer_wf (l : Linear) (x : Tensor) :
  linear_wf l -> length (data x) = dim0 x -> tensor_wf (apply_layer l x).
Proof.
  intros ((Hr & _) & H0 & _ & Hb) Hx. split; cbn [apply_layer data dim0 dim1].
  - now rewrite length_map.
  - apply Forall_forall. intros row Hin. apply in_map_iff in Hin as (r & <- & _).
    rewrite affine_length. lia.
Qed.

Lemma relu_rows (x : Tensor) : length (data (relu x)) = length (data x).
Proof. cbn. apply length_map. Qed.

Lemma relu_wf (x : Tensor) : tensor_wf x -> tensor_wf (relu x).
Proof.
  intros [Hr Hc]. split; cbn [relu data dim0 dim1]; [now rewrite length_map |].
  apply Forall_forall. intros row Hin. apply in_map_iff in Hin as (r & <- & Hin).
  rewrite length_map. revert r Hin. now apply Forall_forall.
Qed.

Lemma torch_tanh_wf (x : Tensor) : tensor_wf x -> tensor_wf (torch_tanh x).
Proof.
  intros [Hr Hc]. split; cbn [torch_tanh data dim0 dim1]; [now rewrite length_map |].
  apply Forall_forall. intros row Hin. apply in_map_iff in Hin as (r & <- & Hin).
  rewrite length_map. revert r Hin. now apply Forall_forall.
Qed.

Lemma batchnorm_rows (bn : BatchNorm1d) (x : Tensor) :
  length (data (batchnorm bn x)) = length (data x) /\
  dim0 (batchnorm bn x) = dim0 x /\ dim1 (batchnorm bn x) = dim1 x.
Proof. unfold batchnorm. destruct (training bn); cbn; now rewrite length_map. Qed.

Lemma concat_rows (a b : Tensor) :
  length (data a) = dim0 a -> length (data b) = dim0 a ->
  length (data (concat a b)) = dim0 (concat a b).
Proof.
  intros Ha Hb. cbn [concat data dim0]. rewrite length_map, length_combine. lia.
Qed.

(** ** The library operations, case by case *)

Lemma Linear_forward_ok {S} (layer : Lens S Linear) (input : Tensor) (s : S) :
  linear_wf (get layer s) -> dim1 input = in_features (get layer s) ->
  Linear_forward layer input s = (inr (apply_layer (get layer s) input), s).
Proof.
  intros (_ & H0 & H1 & _) Hin. unfold Linear_forward.
  rewrite (bind_ok _ _ s (a := get layer s) (s' := s)) by reflexivity.
  rewrite Hin, H1, Nat.eqb_refl. unfold apply_layer. now rewrite H0.
Qed.

Lemma Linear_forward_err {S} (layer : Lens S Linear) (input : Tensor) (s : S) :
  linear_wf (get layer s) -> dim1 input <> in_features (get layer s) ->
  Linear_forward layer input s = (inl ShapeMismatch, s).
Proof.
  intros (_ & H0 & H1 & _) Hin. unfold Linear_forward.
  rewrite (bind_ok _ _ s (a := get layer s) (s' := s)) by reflexivity.
  rewrite H1. apply Nat.eqb_neq in Hin. now rewrite Hin.
Qed.

Lemma cat_dim1_ok {S} (a b : Tensor) (s : S) :
  dim0 a = dim0 b -> cat_dim1 a b s = (inr (concat a b), s).
Proof. intros E. unfold cat_dim1. rewrite <- E, Nat.eqb_refl. reflexivity. Qed.

Lemma cat_dim1_err {S} (a b : Tensor) (s : S) :
  dim0 a <> dim0 b -> cat_dim1 a b s = (inl ShapeMismatch, s).
Proof. intros E. unfold cat_dim1. apply Nat.eqb_neq in E. now rewrite E. Qed.

Lemma BatchNorm1d_forward_single {S} (bn_ : Lens S BatchNorm1d) (input : Tensor) (s : S) :
  training (get bn_ s) = true -> dim0 input = 1%nat ->
  BatchNorm1d_forward bn_ input s = (inl SingleValuePerChannel, s).
Proof.
  intros Ht Hn. unfold BatchNorm1d_forward.
  rewrite (bind_ok _ _ s (a := get bn_ s) (s' := s)) by reflexivity.
  rewrite Ht, Hn. reflexivity.
Qed.

Lemma BatchNorm1d_forward_ok {S} (bn_ : Lens S BatchNorm1d) (input : Tensor) (s : S) :
  dim1 input = num_features (get bn_ s) ->
  (training (get bn_ s) = true -> dim0 input <> 1%nat) ->
  BatchNorm1d_forward bn_ input s =
  (inr (batchnorm (get bn_ s) input),
   if training (get bn_ s) then set bn_ (batchnorm_after (get bn_ s) input) s else s).
Proof.
  intros Hc Hn. unfold BatchNorm1d_forward, batchnorm, batchnorm_after.
  rewrite (bind_ok _ _ s (a := get bn_ s) (s' := s)) by reflexivity.
  rewrite Hc, Nat.eqb_refl. cbn [negb].
  destruct (training (get bn_ s)); [| reflexivity].
  specialize (Hn eq_refl). apply Nat.eqb_neq in Hn. rewrite Hn, <- Hc.
  reflexivity.
Qed.

(** ** Actor.forward *)

(** Runs the next call of a method, given the lemma for that call. *)
Ltac next_ok L := erewrite bind_ok; [| apply L].
Ltac next_err L := erewrite bind_err; [| apply L].

(** C2. On a state of shape N x state_size, [Actor.forward] returns, without
    changing the Actor, [tanh(fc3(relu(fc2(relu(fc1(state))))))], a tensor of
    shape N x action_size. *)
Theorem Actor_forward_formula
    (state_size action_size fc1_units fc2_units : nat) (a : Actor.t) (state : Tensor) :
  Actor.built state_size action_size fc1_units fc2_units a ->
  tensor_wf state -> dim1 state = state_size ->
  Actor.forward state a = (inr (Actor_formula a state), a) /\
  size (Actor_formula a state) = [dim0 state; action_size] /\
  tensor_wf (Actor_formula a state).
Proof.
  intros (W1 & I1 & O1 & W2 & I2 & O2 & W3 & I3 & O3) [Hr Hc] Hs.
  split; [| split].
  - unfold Actor.forward, Actor_formula.
    next_ok (Linear_forward_ok Actor.fc1_); [| exact W1 | cbn; congruence].
    next_ok (Linear_forward_ok Actor.fc2_); [| exact W2 | cbn; congruence].
    next_ok (Linear_forward_ok Actor.fc3_); [| exact W3 | cbn; congruence].
    reflexivity.
  - unfold size, Actor_formula. cbn [torch_tanh apply_layer relu dim0 dim1]. now rewrite O3.
  - unfold Actor_formula. apply torch_tanh_wf, apply_layer_wf; [exact W3 |].
    rewrite relu_rows. cbn [apply_layer data dim0 relu].
    rewrite !length_map. exact Hr.
Qed.

(** ** Critic.forward *)

Section CriticForward.
Variables state_size action_size fcs1_units fc2_units : nat.
Variable c : Critic.t.
Hypothesis B : Critic.built state_size action_size fcs1_units fc2_units c.

(** The critic after a forward pass that got through batch normalization:
    only the normalization layer can have changed. *)
Lemma after_batchnorm_fields (x : Tensor) :
  let c' := if training (Critic.bn1 c)
            then set Critic.bn1_ (batchnorm_after (Critic.bn1 c) x) c else c in
  Critic.fcs1 c' = Critic.fcs1 c /\ Critic.fc2 c' = Critic.fc2 c /\
  Critic.fc3 c' = Critic.fc3 c /\
  c' = Critic.mk (Critic.fcs1 c) (batchnorm_after (Critic.bn1 c) x)
                 (Critic.fc2 c) (Critic.fc3 c).
Proof.
  cbv zeta. unfold batchnorm_after. destruct (training (Critic.bn1 c)).
  - repeat split.
  - repeat split. now destruct c.
Qed.

(** The pass goes through when the sizes fit and batch normalization is not
    given a single sample in training mode. *)
Lemma Critic_forward_ok (state action : Tensor) :
  tensor_wf state -> tensor_wf action ->
  dim1 state = state_size -> dim1 action = action_size ->
  dim0 action = dim0 state ->
  (training (Critic.bn1 c) = true -> dim0 state <> 1%nat) ->
  Critic.forward state action c =
  (inr (Critic_formula c state action),
   Critic.mk (Critic.fcs1 c)
             (batchnorm_after (Critic.bn1 c) (apply_layer (Critic.fcs1 c) state))
             (Critic.fc2 c) (Critic.fc3 c)).
Proof.
  destruct B as (W1 & I1 & O1 & Wb & Nb & W2 & I2 & O2 & W3 & I3 & O3).
  intros [Hr Hc] [Har Hac] Hs Ha Hn Ht.
  unfold Critic.forward, Critic_formula.
  next_ok (Linear_forward_ok Critic.fcs1_); [| exact W1 | cbn; congruence].
  next_ok (BatchNorm1d_forward_ok Critic.bn1_); [| cbn; congruence | exact Ht].
  cbn [get Critic.fcs1_ Critic.bn1_].
  destruct (after_batchnorm_fields (apply_layer (Critic.fcs1 c) state))
    as (F1 & F2 & F3 & Fc).
  cbv zeta in F1, F2, F3, Fc.
  set (c' := if training (Critic.bn1 c) then _ else c) in *.
  next_ok (@cat_dim1_ok Critic.t).
  2:{ cbn [relu dim0]. rewrite (proj1 (proj2 (batchnorm_rows _ _))). now rewrite Hn. }
  next_ok (Linear_forward_ok Critic.fc2_).
  2:{ cbn [get Critic.fc2_]. now rewrite F2. }
  2:{ cbn [concat relu dim1 get Critic.fc2_].
      rewrite (proj2 (proj2 (batchnorm_rows _ _))), F2, I2. cbn [apply_layer dim1].
      now rewrite O1, Ha. }
  next_ok (Linear_forward_ok Critic.fc3_).
  2:{ cbn [get Critic.fc3_]. now rewrite F3. }
  2:{ cbn [relu apply_layer dim1 get Critic.fc2_ Critic.fc3_]. now rewrite F2, F3, O2, I3. }
  cbn [get Critic.fc2_ Critic.fc3_]. rewrite F2, F3, <- Fc. reflexivity.
Qed.

Lemma Critic_formula_shape (state action : Tensor) :
  tensor_wf state -> tensor_wf action -> dim0 action = dim0 state ->
  size (Critic_formula c state action) = [dim0 state; 1%nat] /\
  tensor_wf (Critic_formula c state action).
Proof.
  destruct B as (W1 & I1 & O1 & Wb & Nb & W2 & I2 & O2 & W3 & I3 & O3).
  intros [Hr Hc] [Har Hac] Hn. unfold Critic_formula. cbv zeta. split.
  - unfold size. cbn [apply_layer relu concat dim0 dim1].
    rewrite (proj1 (proj2 (batchnorm_rows _ _))). cbn [apply_layer dim0]. now rewrite O3.
  - apply apply_layer_wf; [exact W3 |].
    rewrite relu_rows. cbn [apply_layer data dim0]. rewrite length_map.
    apply concat_rows.
    + rewrite relu_rows. cbn [relu dim0].
      rewrite (proj1 (batchnorm_rows _ _)), (proj1 (proj2 (batchnorm_rows _ _))).
      cbn [apply_layer data dim0]. now rewrite length_map.
    + cbn [relu dim0]. rewrite (proj1 (proj2 (batchnorm_rows _ _))).
      cbn [apply_layer dim0]. now rewrite Har.
Qed.

(** The pass fails, and with which error, when the sizes do not fit or when
    batch normalization is given a single sample in training mode. *)
Lemma Critic_forward_fails (state action : Tensor) :
  dim0 state <> dim0 action \/ dim1 state <> state_size \/ dim1 action <> action_size \/
  (training (Critic.bn1 c) = true /\ dim0 state = 1%nat) ->
  fst (Critic.forward state action c) = inl (Critic_error state_size c state).
Proof.
  destruct B as (W1 & I1 & O1 & Wb & Nb & W2 & I2 & O2 & W3 & I3 & O3).
  intros Bad. unfold Critic.forward, Critic_error.
  destruct (Nat.eq_dec (dim1 state) state_size) as [Hs | Hs].
  2:{ next_err (Linear_forward_err Critic.fcs1_); [| exact W1 | cbn; congruence].
      apply Nat.eqb_neq in Hs. now rewrite Hs, andb_false_r. }
  next_ok (Linear_forward_ok Critic.fcs1_); [| exact W1 | cbn; congruence].
  rewrite (proj2 (Nat.eqb_eq _ _) Hs), andb_true_r.
  destruct (Bool.bool_dec (training (Critic.bn1 c) && Nat.eqb (dim0 state) 1) true)
    as [Single | Many].
  { apply andb_true_iff in Single as [Ht H1]. apply Nat.eqb_eq in H1.
    next_err (BatchNorm1d_forward_single Critic.bn1_); [| exact Ht | exact H1].
    now rewrite Ht, H1. }
  apply not_true_is_false in Many. rewrite Many.
  assert (Ht : training (Critic.bn1 c) = true -> dim0 state <> 1%nat).
  { intros Ht E. rewrite Ht, E in Many. discriminate. }
  next_ok (BatchNorm1d_forward_ok Critic.bn1_); [| cbn; congruence | exact Ht].
  cbn [get Critic.fcs1_ Critic.bn1_].
  destruct (after_batchnorm_fields (apply_layer (Critic.fcs1 c) state))
    as (F1 & F2 & F3 & _).
  cbv zeta in F1, F2, F3.
  set (c' := if training (Critic.bn1 c) then _ else c) in *.
  destruct (Nat.eq_dec (dim0 state) (dim0 action)) as [E | E].
  2:{ next_err (@cat_dim1_err Critic.t); [reflexivity |].
      cbn [relu dim0]. now rewrite (proj1 (proj2 (batchnorm_rows _ _))). }
  next_ok (@cat_dim1_ok Critic.t).
  2:{ cbn [relu dim0]. now rewrite (proj1 (proj2 (batchnorm_rows _ _))). }
  assert (Ha : dim1 action <> action_size).
  { destruct Bad as [Bad | [Bad | [Bad | [Bt B1]]]];
      [contradiction | contradiction | exact Bad | now specialize (Ht Bt)]. }
  next_err (Linear_forward_err Critic.fc2_); [reflexivity | |].
  - cbn [get Critic.fc2_]. now rewrite F2.
  - cbn [concat relu dim1 get Critic.fc2_].
    rewrite (proj2 (proj2 (batchnorm_rows _ _))), F2, I2. cbn [apply_layer dim1].
    rewrite O1. lia.
Qed.

End CriticForward.

(** C3. On a state of shape N x state_size and an action of shape
    N x action_size (N other than 1 in training mode), [Critic.forward]
    computes [xs = relu(batchnorm(fcs1(state)))], concatenates [xs] and the
    action along the feature axis, applies [relu(fc2(.))] and returns
    [fc3(.)] as it is, a tensor of shape N x 1.  The layers are unchanged;
    the normalization layer is left as a forward pass on [fcs1(state)]
    leaves it. *)
Theorem Critic_forward_formula
    (state_size action_size fcs1_units fc2_units : nat) (c : Critic.t)
    (state action : Tensor) :
  Critic.built state_size action_size fcs1_units fc2_units c ->
  tensor_wf state -> tensor_wf action ->
  dim1 state = state_size -> dim1 action = action_size ->
  dim0 action = dim0 state ->
  (training (Critic.bn1 c) = true -> dim0 state <> 1%nat) ->
  let xs := relu (batchnorm (Critic.bn1 c) (apply_layer (Critic.fcs1 c) state)) in
  let x := concat xs action in
  let x' := relu (apply_layer (Critic.fc2 c) x) in
  let Q := apply_layer (Critic.fc3 c) x' in
  Critic.forward state action c =
    (inr Q,
     Critic.mk (Critic.fcs1 c)
               (batchnorm_after (Critic.bn1 c) (apply_layer (Critic.fcs1 c) state))
               (Critic.fc2 c) (Critic.fc3 c)) /\
  data Q = map (affine (weight (Critic.fc3 c)) (bias (Critic.fc3 c))) (data x') /\
  size Q = [dim0 state; 1%nat].
Proof.
  intros B Ws Wa Hs Ha Hn Ht. cbv zeta. split; [| split].
  - apply (Critic_forward_ok B); assumption.
  - reflexivity.
  - apply (Critic_formula_shape B Ws Wa Hn).
Qed.

(** C7, as amended. [Critic.forward] fails whenever the batch sizes of the
    state and of the action differ, or a feature dimension is not the one
    fixed at construction: with a dimension-mismatch error, except that in
    training mode a state of one sample with [state_size] features fails in
    batch normalization, with its single-sample error, before the sizes are
    compared.  No result is produced in any of these cases. *)
Theorem Critic_forward_rejects_mismatch
    (state_size action_size fcs1_units fc2_units : nat) (c : Critic.t)
    (state action : Tensor) :
  Critic.built state_size action_size fcs1_units fc2_units c ->
  dim0 state <> dim0 action \/ dim1 state <> state_size \/ dim1 action <> action_size ->
  fst (Critic.forward state action c) =
    inl (if training (Critic.bn1 c) && Nat.eqb (dim0 state) 1
            && Nat.eqb (dim1 state) state_size
         then SingleValuePerChannel else ShapeMismatch) /\
  forall q : Tensor, fst (Critic.forward state action c) <> inr q.
Proof.
  intros B Bad.
  assert (E : fst (Critic.forward state action c) = inl (Critic_error state_size c state)).
  { apply (Critic_forward_fails B). tauto. }
  split; [exact E |]. intros q. rewrite E. discriminate.
Qed.

(** C8. In training mode [Critic.forward] fails on a state of one sample:
    with the single-sample error of batch normalization when the state has
    [state_size] features.  On N samples of the right sizes, N at least 2 in
    training mode and at least 1 in evaluation mode, it returns a tensor of
    shape N x 1. *)
Theorem Critic_forward_batch_size
    (state_size action_size fcs1_units fc2_units : nat) (c : Critic.t) :
  Critic.built state_size action_size fcs1_units fc2_units c ->
  (forall state action : Tensor,
      training (Critic.bn1 c) = true -> dim0 state = 1%nat ->
      (exists e : error, fst (Critic.forward state action c) = inl e) /\
      (dim1 state = state_size ->
       fst (Critic.forward state action c) = inl SingleValuePerChannel)) /\
  (forall state action : Tensor,
      tensor_wf state -> tensor_wf action ->
      dim1 state = state_size -> dim1 action = action_size ->
      dim0 action = dim0 state ->
      (if training (Critic.bn1 c) then 2 <= dim0 state else 1 <= dim0 state)%nat ->
      exists q : Tensor,
        fst (Critic.forward state action c) = inr q /\
        size q = [dim0 state; 1%nat] /\ tensor_wf q).
Proof.
  intros B. split.
  - intros state action Ht H1.
    assert (E : fst (Critic.forward state action c) = inl (Critic_error state_size c state)).
    { apply (Critic_forward_fails B). tauto. }
    split; [eexists; exact E |]. intros Hs. rewrite E. unfold Critic_error.
    rewrite Ht, H1, (proj2 (Nat.eqb_eq _ _) Hs). reflexivity.
  - intros state action Ws Wa Hs Ha Hn HN.
    exists (Critic_formula c state action).
    rewrite (Critic_forward_ok B Ws Wa Hs Ha Hn).
    + split; [reflexivity |]. apply (Critic_formula_shape B Ws Wa Hn).
    + intros Ht. rewrite Ht in HN. lia.
Qed.

(** ** The concrete objects *)

Lemma lcg_unit_range : @unit_range lcg.
Proof.
  intros g. cbn [random_unit lcg fst].
  destruct (Z.mod_pos_bound g lcg_modulus eq_refl) as [H0 H1].
  apply IZR_le in H0. apply IZR_lt in H1.
  assert (Hm : 0 < IZR lcg_modulus) by (apply IZR_lt; reflexivity).
  assert (Q : IZR (g mod lcg_modulus) / IZR lcg_modulus * IZR lcg_modulus
              = IZR (g mod lcg_modulus)) by (field; lra).
  split; nra.
Qed.

Ltac shapes :=
  unfold Actor.built, Critic.built, linear_wf, batchnorm_wf, tensor_wf;
  cbn [Actor.fc1 Actor.fc2 Actor.fc3 Critic.fcs1 Critic.bn1 Critic.fc2 Critic.fc3
       actor_1 critic_1 critic_1_eval batch_1 batch_2 BatchNorm1d_new repeat
       weight bias in_features out_features dim0 dim1 data length Nat.add
       num_features bn_weight bn_bias running_mean running_var training];
  repeat split; repeat constructor.

Lemma actor_1_built : Actor.built 1 1 1 1 actor_1.
Proof. shapes. Qed.

Lemma critic_1_built : Critic.built 1 1 1 1 critic_1.
Proof. shapes. Qed.

Lemma critic_1_eval_built : Critic.built 1 1 1 1 critic_1_eval.
Proof. shapes. Qed.

Lemma batch_1_wf : tensor_wf batch_1.
Proof. shapes. Qed.

Lemma batch_2_wf : tensor_wf batch_2.
Proof. shapes. Qed.

(** [actor_1] passes one state of value 1 through three identities and
    through [tanh]. *)
Example actor_1_on_batch_1 :
  Actor.forward batch_1 actor_1 = (inr (mkTensor 1 1 [[tanh 1]]), actor_1).
Proof.
  unfold Actor.forward.
  next_ok (Linear_forward_ok Actor.fc1_); [| apply actor_1_built | reflexivity].
  next_ok (Linear_forward_ok Actor.fc2_); [| apply actor_1_built | reflexivity].
  next_ok (Linear_forward_ok Actor.fc3_); [| apply actor_1_built | reflexivity].
  unfold ret, torch_tanh, relu, apply_layer, affine.
  cbn [get Actor.fc1_ Actor.fc2_ Actor.fc3_ Actor.fc1 Actor.fc2 Actor.fc3 actor_1 batch_1
       weight bias data dim0 dim1 out_features map combine inner fst snd].
  assert (E : Rmax 0 (1 * 1 + 0 + 0) = 1) by (rewrite Rmax_right; lra).
  rewrite E, E. replace (1 * 1 + 0 + 0) with 1 by lra. reflexivity.
Qed.

(** Two states through [actor_1]. *)
Lemma Actor_forward_formula_witness :
  Actor.forward batch_2 actor_1 = (inr (Actor_formula actor_1 batch_2), actor_1) /\
  size (Actor_formula actor_1 batch_2) = [2%nat; 1%nat] /\
  tensor_wf (Actor_formula actor_1 batch_2).
Proof.
  apply (@Actor_forward_formula 1 1 1 1 actor_1 batch_2).
  - exact actor_1_built.
  - exact batch_2_wf.
  - reflexivity.
Defined.

(** Two states and two actions through [critic_1], in training mode. *)
Lemma Critic_forward_formula_witness :
  fst (Critic.forward batch_2 batch_2 critic_1) =
    inr (Critic_formula critic_1 batch_2 batch_2) /\
  size (Critic_formula critic_1 batch_2 batch_2) = [2%nat; 1%nat].
Proof.
  destruct (@Critic_forward_formula 1 1 1 1 critic_1 batch_2 batch_2) as (E & _ & S).
  - exact critic_1_built.
  - exact batch_2_wf.
  - exact batch_2_wf.
  - reflexivity.
  - reflexivity.
  - reflexivity.
  - intros _. cbn [batch_2 dim0]. discriminate.
  - split; [now rewrite E | exact S].
Defined.

(** [actor_1] reset with the linear congruential generator seeded with 2. *)
Lemma reset_parameters_weights_within_bounds_witness :
  @unit_range lcg /\
  let a' := self (snd (Actor.reset_parameters (rng := lcg)
                         (mkWorld (rng := lcg) actor_1 (manual_seed (RNG := lcg) 2)))) in
  within (- (3 / 1000)) (3 / 1000) (weight (Actor.fc3 a')) /\
  within_own_bound (Actor.fc1 a') /\
  within_own_bound (Actor.fc2 a').
Proof.
  split; [exact lcg_unit_range |].
  destruct (@reset_parameters_weights_within_bounds lcg lcg_unit_range) as [HA _].
  destruct (HA (mkWorld (rng := lcg) actor_1 (manual_seed (RNG := lcg) 2)))
    as (H3 & H1 & H2 & _).
  cbv zeta. repeat split; assumption.
Defined.

(** In evaluation mode, one state against two actions is a dimension
    mismatch. *)
Lemma Critic_forward_rejects_mismatch_witness :
  dim0 batch_1 <> dim0 batch_2 /\
  fst (Critic.forward batch_1 batch_2 critic_1_eval) = inl ShapeMismatch /\
  forall q : Tensor, fst (Critic.forward batch_1 batch_2 critic_1_eval) <> inr q.
Proof.
  assert (D : dim0 batch_1 <> dim0 batch_2) by (cbn [batch_1 batch_2 dim0]; discriminate).
  split; [exact D |].
  exact (@Critic_forward_rejects_mismatch 1 1 1 1 critic_1_eval batch_1 batch_2
           critic_1_eval_built (or_introl D)).
Defined.

(** C7, as stated, fails: in training mode, one state against two actions
    differ in batch size, and the error is not a dimension mismatch but the
    single-sample error of batch normalization. *)
Lemma Critic_forward_single_sample_before_mismatch :
  Critic.built 1 1 1 1 critic_1 /\
  training (Critic.bn1 critic_1) = true /\
  size batch_1 = [1%nat; 1%nat] /\ size batch_2 = [2%nat; 1%nat] /\
  dim0 batch_1 <> dim0 batch_2 /\
  fst (Critic.forward batch_1 batch_2 critic_1) = inl SingleValuePerChannel /\
  fst (Critic.forward batch_1 batch_2 critic_1) <> inl ShapeMismatch.
Proof.
  assert (D : dim0 batch_1 <> dim0 batch_2) by (cbn [batch_1 batch_2 dim0]; discriminate).
  assert (E : fst (Critic.forward batch_1 batch_2 critic_1) = inl SingleValuePerChannel).
  { rewrite (Critic_forward_fails critic_1_built batch_1 batch_2 (or_introl D)).
    reflexivity. }
  split; [exact critic_1_built |]. split; [reflexivity |].
  split; [reflexivity |]. split; [reflexivity |].
  split; [exact D |]. split; [exact E |].
  rewrite E. discriminate.
Qed.

(** One sample and two samples through [critic_1]. *)
Lemma Critic_forward_batch_size_witness :
  fst (Critic.forward batch_1 batch_1 critic_1) = inl SingleValuePerChannel /\
  (exists q : Tensor,
      fst (Critic.forward batch_2 batch_2 critic_1) = inr q /\
      size q = [2%nat; 1%nat] /\ tensor_wf q) /\
  (exists q : Tensor,
      fst (Critic.forward batch_1 batch_1 critic_1_eval) = inr q /\
      size q = [1%nat; 1%nat] /\ tensor_wf q).
Proof.
  destruct (@Critic_forward_batch_size 1 1 1 1 critic_1 critic_1_built) as [S1 S2].
  destruct (@Critic_forward_batch_size 1 1 1 1 critic_1_eval critic_1_eval_built) as [_ E2].
  split; [| split].
  - apply (S1 batch_1 batch_1); reflexivity.
  - apply (S2 batch_2 batch_2);
      [exact batch_2_wf | exact batch_2_wf | reflexivity | reflexivity | reflexivity |].
    cbn [critic_1 Critic.bn1 BatchNorm1d_new training batch_2 dim0]. lia.
  - apply (E2 batch_1 batch_1);
      [exact batch_1_wf | exact batch_1_wf | reflexivity | reflexivity | reflexivity |].
    cbn [critic_1_eval Critic.bn1 training batch_1 dim0]. lia.
Defined.

(** ** The range of the Actor in exact arithmetic *)

(** Over the real numbers the hyperbolic tangent never reaches -1 or 1.  The
    entries of this model are real numbers: the lemmas below say nothing of
    a machine [tanh], whose result is rounded, and rounds to 1 or to -1 once
    its argument is large enough. *)
Lemma tanh_exact_range (x : R) : -1 < tanh x < 1.
Proof.
  unfold tanh.
  assert (C : 0 < cosh x) by (unfold cosh; pose proof (exp_pos x); pose proof (exp_pos (- x)); lra).
  assert (S : - cosh x < sinh x < cosh x).
  { unfold sinh, cosh. pose proof (exp_pos x). pose proof (exp_pos (- x)). lra. }
  assert (Q : sinh x / cosh x * cosh x = sinh x) by (field; lra).
  split; nra.
Qed.

Lemma Actor_formula_exact_range (a : Actor.t) (state : Tensor) :
  Forall (Forall (fun y => -1 < y < 1)) (data (Actor_formula a state)).
Proof.
  unfold Actor_formula. cbn [torch_tanh data].
  apply Forall_forall. intros row Hin. apply in_map_iff in Hin as (r & <- & _).
  apply Forall_forall. intros y Hy. apply in_map_iff in Hy as (x & <- & _).
  apply tanh_exact_range.
Qed.

(** * Further properties *)

(** ** The bound of hidden_init *)

(** X1. For a layer as [nn.Linear] builds it, [hidden_init] returns the pair
    [(-lim, lim)] with [lim = 1 / sqrt(out_features)]: the number of input
    features plays no part. *)
Theorem hidden_init_bound_of_linear (l : Linear) :
  linear_wf l ->
  fst (hidden_init here l) =
  inr (- (1 / sqrt (INR (out_features l))), 1 / sqrt (INR (out_features l))).
Proof.
  intros (_ & H0 & _). rewrite hidden_init_run. cbn [fst get here]. now rewrite H0.
Qed.

Lemma hidden_init_bound_of_linear_witness :
  linear_wf linear_4_1 /\
  fst (hidden_init here linear_4_1) =
  inr (- (1 / sqrt (INR 1)), 1 / sqrt (INR 1)).
Proof.
  assert (W : linear_wf linear_4_1).
  { unfold linear_wf, tensor_wf. cbn. repeat split; auto. }
  split; [exact W |]. exact (hidden_init_bound_of_linear W).
Defined.




(** ** Actor.forward, further *)

Section ActorForward.
Variables state_size action_size fc1_units fc2_units : nat.
Variable a : Actor.t.
Hypothesis B : Actor.built state_size action_size fc1_units fc2_units a.

Lemma Actor_forward_ok (state : Tensor) :
  dim1 state = state_size ->
  Actor.forward state a = (inr (Actor_formula a state), a).
Proof.
  destruct B as (W1 & I1 & O1 & W2 & I2 & O2 & W3 & I3 & O3). intros Hs.
  unfold Actor.forward, Actor_formula.
  next_ok (Linear_forward_ok Actor.fc1_); [| exact W1 | cbn; congruence].
  next_ok (Linear_forward_ok Actor.fc2_); [| exact W2 | cbn; congruence].
  next_ok (Linear_forward_ok Actor.fc3_); [| exact W3 | cbn; congruence].
  reflexivity.
Qed.

Lemma Actor_forward_err (state : Tensor) :
  dim1 state <> state_size ->
  Actor.forward state a = (inl ShapeMismatch, a).
Proof.
  destruct B as (W1 & I1 & _). intros Hs. unfold Actor.forward.
  next_err (Linear_forward_err Actor.fc1_); [reflexivity | exact W1 | cbn; congruence].
Qed.

End ActorForward.

(** X3. [Actor.forward] on a state whose feature dimension is not
    [state_size] fails with a dimension-mismatch error at [fc1], whatever the
    batch size, and leaves the Actor unchanged. *)
Theorem Actor_forward_rejects_feature_size
    (state_size action_size fc1_units fc2_units : nat) (a : Actor.t) (state : Tensor) :
  Actor.built state_size action_size fc1_units fc2_units a ->
  dim1 state <> state_size ->
  Actor.forward state a = (inl ShapeMismatch, a).
Proof. intros B Hs. exact (Actor_forward_err B state Hs). Qed.

Lemma Actor_forward_rejects_feature_size_witness :
  dim1 (mkTensor 2 3 [[1; 2; 3]; [4; 5; 6]]) <> 1%nat /\
  Actor.forward (mkTensor 2 3 [[1; 2; 3]; [4; 5; 6]]) actor_1
  = (inl ShapeMismatch, actor_1).
Proof.
  assert (D : dim1 (mkTensor 2 3 [[1; 2; 3]; [4; 5; 6]]) <> 1%nat)
    by (cbn [dim1]; discriminate).
  split; [exact D |].
  exact (@Actor_forward_rejects_feature_size 1 1 1 1 actor_1 _ actor_1_built D).
Defined.

Lemma nth_map_lt {A B} (f : A -> B) (l : list A) (i : nat) (d : A) (d' : B) :
  (i < length l)%nat -> nth i (map f l) d' = f (nth i l d).
Proof.
  intros H. rewrite (nth_indep (map f l) d' (f d)) by now rewrite length_map.
  apply map_nth.
Qed.

(** X4. The batch dimension of [Actor.forward] is independent per row: row
    [i] of the result on a batch is the result on the batch made of row [i]
    of the state alone. *)
Theorem Actor_forward_rowwise
    (state_size action_size fc1_units fc2_units : nat) (a : Actor.t)
    (state : Tensor) (i : nat) :
  Actor.built state_size action_size fc1_units fc2_units a ->
  tensor_wf state -> dim1 state = state_size -> (i < dim0 state)%nat ->
  exists out : Tensor,
    Actor.forward state a = (inr out, a) /\
    Actor.forward (row_of state i) a
    = (inr (mkTensor 1 action_size [nth i (data out) []]), a).
Proof.
  intros B [Hr Hc] Hs Hi. exists (Actor_formula a state).
  split; [exact (Actor_forward_ok B state Hs) |].
  rewrite (Actor_forward_ok B (row_of state i) Hs).
  destruct B as (_ & _ & _ & _ & _ & _ & _ & _ & O3).
  unfold Actor_formula, torch_tanh, relu, apply_layer, row_of.
  cbn [data dim0 dim1 map]. rewrite O3. do 3 f_equal.
  rewrite <- Hr in Hi. rewrite !map_map.
  now rewrite (nth_map_lt _ (data state) [] [] Hi).
Qed.

Lemma Actor_forward_rowwise_witness :
  exists out : Tensor,
    Actor.forward batch_2 actor_1 = (inr out, actor_1) /\
    Actor.forward (row_of batch_2 1) actor_1
    = (inr (mkTensor 1 1 [nth 1 (data out) []]), actor_1).
Proof.
  apply (@Actor_forward_rowwise 1 1 1 1 actor_1 batch_2 1%nat).
  - exact actor_1_built.
  - exact batch_2_wf.
  - reflexivity.
  - cbn [batch_2 dim0]. lia.
Defined.

(** ** reset_parameters, further *)

Section ResetFurther.
Context {rng : RNG}.






Lemma refill_same_shape (a b : R) (g : Generator) (l l' : Linear) :
  size (weight l) = size (weight l') ->
  weight (refill a b g l) = weight (refill a b g l') /\
  after_refill a b g l = after_refill a b g l' /\
  lim l = lim l'.
Proof.
  unfold size. intros E. injection E as E0 E1.
  unfold refill, after_refill, lim. cbn [set get attr weight_ data_ weight].
  now rewrite E0, E1.
Qed.

(** X6. [Actor.reset_parameters] forgets the old weights: run from the same
    state of the default generator on two Actors whose weights have the same
    shapes, it leaves the same three weights and the same generator,
    whatever the weights held before. *)
Theorem Actor_reset_parameters_forgets_weights (w1 w2 : World Actor.t) :
  default_generator w1 = default_generator w2 ->
  size (weight (Actor.fc1 (self w1))) = size (weight (Actor.fc1 (self w2))) ->
  size (weight (Actor.fc2 (self w1))) = size (weight (Actor.fc2 (self w2))) ->
  size (weight (Actor.fc3 (self w1))) = size (weight (Actor.fc3 (self w2))) ->
  let a1 := self (snd (Actor.reset_parameters w1)) in
  let a2 := self (snd (Actor.reset_parameters w2)) in
  weight (Actor.fc1 a1) = weight (Actor.fc1 a2) /\
  weight (Actor.fc2 a1) = weight (Actor.fc2 a2) /\
  weight (Actor.fc3 a1) = weight (Actor.fc3 a2) /\
  default_generator (snd (Actor.reset_parameters w1)) =
  default_generator (snd (Actor.reset_parameters w2)).
Proof.
  intros G S1 S2 S3. cbv zeta. rewrite !Actor_reset_parameters_run.
  cbn [snd self default_generator Actor.fc1 Actor.fc2 Actor.fc3]. rewrite G.
  destruct (refill_same_shape (- lim (Actor.fc1 (self w1))) (lim (Actor.fc1 (self w1)))
              (default_generator w2) _ _ S1) as (E1 & A1 & L1).
  rewrite <- L1, <- A1.
  destruct (refill_same_shape (- lim (Actor.fc2 (self w1))) (lim (Actor.fc2 (self w1)))
              (after_refill (- lim (Actor.fc1 (self w1))) (lim (Actor.fc1 (self w1)))
                 (default_generator w2) (Actor.fc1 (self w1))) _ _ S2) as (E2 & A2 & L2).
  rewrite <- L2, <- A2.
  destruct (refill_same_shape (- (3 / 1000)) (3 / 1000)
              (after_refill (- lim (Actor.fc2 (self w1))) (lim (Actor.fc2 (self w1)))
                 (after_refill (- lim (Actor.fc1 (self w1))) (lim (Actor.fc1 (self w1)))
                    (default_generator w2) (Actor.fc1 (self w1)))
                 (Actor.fc2 (self w1))) _ _ S3) as (E3 & A3 & _).
  repeat split; assumption.
Qed.

(** X7. [reset_parameters] keeps the shapes of the network: an Actor, or a
    Critic, with the shapes of its constructor has them after the call, and
    the Critic keeps its normalization layer and its mode. *)
Theorem reset_parameters_keeps_shapes
    (state_size action_size units1 units2 : nat) :
  (forall w : World Actor.t,
      Actor.built state_size action_size units1 units2 (self w) ->
      Actor.built state_size action_size units1 units2
                  (self (snd (Actor.reset_parameters w)))) /\
  (forall w : World Critic.t,
      Critic.built state_size action_size units1 units2 (self w) ->
      Critic.built state_size action_size units1 units2
                   (self (snd (Critic.reset_parameters w))) /\
      Critic.bn1 (self (snd (Critic.reset_parameters w))) = Critic.bn1 (self w)).
Proof.
  split; intros w.
  - intros (W1 & I1 & O1 & W2 & I2 & O2 & W3 & I3 & O3).
    rewrite Actor_reset_parameters_run. cbn [snd self]. unfold Actor.built.
    cbn [Actor.fc1 Actor.fc2 Actor.fc3].
    repeat split; first [assumption | apply refill_tensor_wf | apply W1 | apply W2 | apply W3].
  - intros (W1 & I1 & O1 & Wb & Nb & W2 & I2 & O2 & W3 & I3 & O3).
    rewrite Critic_reset_parameters_run. cbn [snd self]. unfold Critic.built.
    cbn [Critic.fcs1 Critic.bn1 Critic.fc2 Critic.fc3].
    repeat split;
      first [assumption | apply refill_tensor_wf | apply W1 | apply W2 | apply W3 | apply Wb].
Qed.

End ResetFurther.

(** [actor_1] and an Actor of the same shapes with other weights, reset
    from the same generator state. *)
Lemma Actor_reset_parameters_forgets_weights_witness :
  let other := Actor.mk (mkLinear 1 1 (mkTensor 1 1 [[5]]) [7])
                        (mkLinear 1 1 (mkTensor 1 1 [[6]]) [8])
                        (mkLinear 1 1 (mkTensor 1 1 [[4]]) [9]) in
  let w1 := mkWorld (rng := lcg) actor_1 (manual_seed (RNG := lcg) 2) in
  let w2 := mkWorld (rng := lcg) other (manual_seed (RNG := lcg) 2) in
  weight (Actor.fc1 (self (snd (Actor.reset_parameters w1)))) =
  weight (Actor.fc1 (self (snd (Actor.reset_parameters w2)))) /\
  weight (Actor.fc3 (self (snd (Actor.reset_parameters w1)))) =
  weight (Actor.fc3 (self (snd (Actor.reset_parameters w2)))).
Proof.
  cbv zeta.
  destruct (@Actor_reset_parameters_forgets_weights lcg
              (mkWorld (rng := lcg) actor_1 (manual_seed (RNG := lcg) 2))
              (mkWorld (rng := lcg)
                 (Actor.mk (mkLinear 1 1 (mkTensor 1 1 [[5]]) [7])
                           (mkLinear 1 1 (mkTensor 1 1 [[6]]) [8])
                           (mkLinear 1 1 (mkTensor 1 1 [[4]]) [9]))
                 (manual_seed (RNG := lcg) 2)))
    as (E1 & _ & E3 & _); try reflexivity.
  split; assumption.
Defined.

Lemma reset_parameters_keeps_shapes_witness :
  Actor.built 1 1 1 1
    (self (snd (Actor.reset_parameters (rng := lcg)
                  (mkWorld (rng := lcg) actor_1 (manual_seed (RNG := lcg) 2))))) /\
  Critic.built 1 1 1 1
    (self (snd (Critic.reset_parameters (rng := lcg)
                  (mkWorld (rng := lcg) critic_1 (manual_seed (RNG := lcg) 2))))).
Proof.
  destruct (@reset_parameters_keeps_shapes lcg 1 1 1 1) as [HA HC]. split.
  - apply HA. exact actor_1_built.
  - apply HC. exact critic_1_built.
Defined.

(** ** Construction, further *)

Section ConstructionFurther.
Context {rng : RNG}.

Lemma lim_of_linear (l : Linear) : linear_wf l -> lim l = 1 / sqrt (INR (out_features l)).
Proof. intros (_ & H0 & _). unfold lim. now rewrite H0. Qed.

(** What [Actor.__init__] returns: three layers of the library's making,
    their weights redrawn by [reset_parameters]. *)
Lemma Actor_init_result
    (state_size action_size : nat) (seed : Z) (fc1_units fc2_units : nat)
    (w : World unit) :
  exists (l1 l2 l3 : Linear) (g1 g2 g3 : Generator),
    (linear_wf l1 /\ in_features l1 = state_size /\ out_features l1 = fc1_units) /\
    (linear_wf l2 /\ in_features l2 = fc1_units /\ out_features l2 = fc2_units) /\
    (linear_wf l3 /\ in_features l3 = fc2_units /\ out_features l3 = action_size) /\
    fst (Actor.__init__ state_size action_size seed fc1_units fc2_units w) =
    inr (Actor.mk (refill (- lim l1) (lim l1) g1 l1)
                  (refill (- lim l2) (lim l2) g2 l2)
                  (refill (- (3 / 1000)) (3 / 1000) g3 l3)).
Proof.
  unfold Actor.__init__.
  rewrite (bind_ok _ _ _ (seeded_world seed w)).
  destruct (Linear_new_wf state_size fc1_units (mkWorld tt (manual_seed seed)))
    as (l1 & v1 & E1 & _ & W1 & I1 & O1).
  rewrite (bind_ok _ _ _ E1).
  destruct (Linear_new_wf fc1_units fc2_units v1) as (l2 & v2 & E2 & _ & W2 & I2 & O2).
  rewrite (bind_ok _ _ _ E2).
  destruct (Linear_new_wf fc2_units action_size v2) as (l3 & v3 & E3 & _ & W3 & I3 & O3).
  rewrite (bind_ok _ _ _ E3).
  unfold with_self. rewrite Actor_reset_parameters_run. cbn [fst self default_generator].
  exists l1, l2, l3. do 3 eexists.
  split; [exact (conj W1 (conj I1 O1)) |]. split; [exact (conj W2 (conj I2 O2)) |].
  split; [exact (conj W3 (conj I3 O3)) |].
  cbn [Actor.fc1 Actor.fc2 Actor.fc3]. reflexivity.
Qed.

Lemma Critic_init_result
    (state_size action_size : nat) (seed : Z) (fcs1_units fc2_units : nat)
    (w : World unit) :
  exists (l1 l2 l3 : Linear) (g1 g2 g3 : Generator),
    (linear_wf l1 /\ in_features l1 = state_size /\ out_features l1 = fcs1_units) /\
    (linear_wf l2 /\ in_features l2 = (fcs1_units + action_size)%nat /\
     out_features l2 = fc2_units) /\
    (linear_wf l3 /\ in_features l3 = fc2_units /\ out_features l3 = 1%nat) /\
    fst (Critic.__init__ state_size action_size seed fcs1_units fc2_units w) =
    inr (Critic.mk (refill (- lim l1) (lim l1) g1 l1)
                   (BatchNorm1d_new fcs1_units)
                   (refill (- lim l2) (lim l2) g2 l2)
                   (refill (- (3 / 1000)) (3 / 1000) g3 l3)).
Proof.
  unfold Critic.__init__.
  rewrite (bind_ok _ _ _ (seeded_world seed w)).
  destruct (Linear_new_wf state_size fcs1_units (mkWorld tt (manual_seed seed)))
    as (l1 & v1 & E1 & _ & W1 & I1 & O1).
  rewrite (bind_ok _ _ _ E1).
  destruct (Linear_new_wf (fcs1_units + action_size) fc2_units v1)
    as (l2 & v2 & E2 & _ & W2 & I2 & O2).
  rewrite (bind_ok _ _ _ E2).
  destruct (Linear_new_wf fc2_units 1 v2) as (l3 & v3 & E3 & _ & W3 & I3 & O3).
  rewrite (bind_ok _ _ _ E3).
  unfold with_self. rewrite Critic_reset_parameters_run. cbn [fst self default_generator].
  exists l1, l2, l3. do 3 eexists.
  split; [exact (conj W1 (conj I1 O1)) |]. split; [exact (conj W2 (conj I2 O2)) |].
  split; [exact (conj W3 (conj I3 O3)) |].
  cbn [Critic.fcs1 Critic.bn1 Critic.fc2 Critic.fc3]. reflexivity.
Qed.

Lemma refill_built_layer (a b : R) (g : Generator) (l : Linear) (i o : nat) :
  linear_wf l /\ in_features l = i /\ out_features l = o ->
  linear_wf (refill a b g l) /\ in_features (refill a b g l) = i /\
  out_features (refill a b g l) = o.
Proof. intros (W & I & O). split; [now apply refill_wf | now split]. Qed.

Lemma refill_within_units (g : Generator) (l : Linear) (i o : nat) :
  unit_range -> linear_wf l /\ in_features l = i /\ out_features l = o ->
  within (- (1 / sqrt (INR o))) (1 / sqrt (INR o)) (weight (refill (- lim l) (lim l) g l)).
Proof.
  intros U (W & _ & O). rewrite <- O, <- (lim_of_linear W).
  apply refill_within; [exact U | apply lim_symmetric].
Qed.

(** X8. With a generator whose samples lie in the unit interval, the weights
    of a freshly constructed Actor lie within [1 / sqrt(fc1_units)] for
    [fc1], within [1 / sqrt(fc2_units)] for [fc2] and within 0.003 for [fc3];
    those of a freshly constructed Critic within [1 / sqrt(fcs1_units)] for
    [fcs1], within [1 / sqrt(fc2_units)] for [fc2] and within 0.003 for
    [fc3].  The bound of a hidden layer is set by its number of units, not
    by the number of its inputs. *)
Theorem init_weights_within_unit_bounds
    (state_size action_size : nat) (seed : Z) (units1 units2 : nat) (w : World unit) :
  unit_range ->
  (exists a : Actor.t,
      fst (Actor.__init__ state_size action_size seed units1 units2 w) = inr a /\
      within (- (1 / sqrt (INR units1))) (1 / sqrt (INR units1)) (weight (Actor.fc1 a)) /\
      within (- (1 / sqrt (INR units2))) (1 / sqrt (INR units2)) (weight (Actor.fc2 a)) /\
      within (- (3 / 1000)) (3 / 1000) (weight (Actor.fc3 a))) /\
  (exists c : Critic.t,
      fst (Critic.__init__ state_size action_size seed units1 units2 w) = inr c /\
      within (- (1 / sqrt (INR units1))) (1 / sqrt (INR units1)) (weight (Critic.fcs1 c)) /\
      within (- (1 / sqrt (INR units2))) (1 / sqrt (INR units2)) (weight (Critic.fc2 c)) /\
      within (- (3 / 1000)) (3 / 1000) (weight (Critic.fc3 c))).
Proof.
  intros U. split.
  - destruct (Actor_init_result state_size action_size seed units1 units2 w)
      as (l1 & l2 & l3 & g1 & g2 & g3 & B1 & B2 & B3 & E).
    eexists. split; [exact E |]. cbn [Actor.fc1 Actor.fc2 Actor.fc3].
    split; [exact (refill_within_units g1 U B1) |].
    split; [exact (refill_within_units g2 U B2) |].
    apply refill_within; [exact U | lra].
  - destruct (Critic_init_result state_size action_size seed units1 units2 w)
      as (l1 & l2 & l3 & g1 & g2 & g3 & B1 & B2 & B3 & E).
    eexists. split; [exact E |]. cbn [Critic.fcs1 Critic.fc2 Critic.fc3].
    split; [exact (refill_within_units g1 U B1) |].
    split; [exact (refill_within_units g2 U B2) |].
    apply refill_within; [exact U | lra].
Qed.

End ConstructionFurther.

Lemma init_weights_within_unit_bounds_witness :
  @unit_range lcg /\
  exists a : Actor.t,
    fst (Actor.__init__ (rng := lcg) 33 4 2 256 128
           (mkWorld (rng := lcg) tt (manual_seed (RNG := lcg) 0))) = inr a /\
    within (- (1 / sqrt (INR 256))) (1 / sqrt (INR 256)) (weight (Actor.fc1 a)) /\
    within (- (1 / sqrt (INR 128))) (1 / sqrt (INR 128)) (weight (Actor.fc2 a)) /\
    within (- (3 / 1000)) (3 / 1000) (weight (Actor.fc3 a)).
Proof.
  split; [exact lcg_unit_range |].
  exact (proj1 (@init_weights_within_unit_bounds lcg 33 4 2 256 128
                  (mkWorld (rng := lcg) tt (manual_seed (RNG := lcg) 0))
                  lcg_unit_range)).
Defined.

Section FreshNetworks.
Context {rng : RNG}.

Lemma Actor_formula_shape
    (state_size action_size fc1_units fc2_units : nat) (a : Actor.t) (state : Tensor) :
  Actor.built state_size action_size fc1_units fc2_units a -> tensor_wf state ->
  size (Actor_formula a state) = [dim0 state; action_size] /\
  tensor_wf (Actor_formula a state).
Proof.
  intros (_ & _ & _ & _ & _ & _ & W3 & _ & O3) [Hr _]. split.
  - unfold size, Actor_formula. cbn [torch_tanh apply_layer relu dim0 dim1]. now rewrite O3.
  - unfold Actor_formula. apply torch_tanh_wf, apply_layer_wf; [exact W3 |].
    rewrite relu_rows. cbn [apply_layer data dim0 relu]. rewrite !length_map. exact Hr.
Qed.

Lemma Actor_init_built
    (state_size action_size : nat) (seed : Z) (fc1_units fc2_units : nat)
    (w : World unit) :
  exists a : Actor.t,
    fst (Actor.__init__ state_size action_size seed fc1_units fc2_units w) = inr a /\
    Actor.built state_size action_size fc1_units fc2_units a.
Proof.
  destruct (Actor_init_result state_size action_size seed fc1_units fc2_units w)
    as (l1 & l2 & l3 & g1 & g2 & g3 & B1 & B2 & B3 & E).
  eexists. split; [exact E |]. unfold Actor.built. cbn [Actor.fc1 Actor.fc2 Actor.fc3].
  pose proof (refill_built_layer (- lim l1) (lim l1) g1 B1).
  pose proof (refill_built_layer (- lim l2) (lim l2) g2 B2).
  pose proof (refill_built_layer (- (3 / 1000)) (3 / 1000) g3 B3).
  tauto.
Qed.

(** X9. Constructing a Critic succeeds and gives the same Critic whatever
    the state of the default generator before the call; the Critic has the
    shapes of its arguments, [fc2] taking [fcs1_units + action_size] inputs
    and [fc3] giving one output, and its normalization layer is the
    library's fresh one, in training mode. *)
Theorem Critic_init_deterministic
    (state_size action_size : nat) (seed : Z) (fcs1_units fc2_units : nat)
    (w1 w2 : World unit) :
  Critic.__init__ state_size action_size seed fcs1_units fc2_units w1 =
  Critic.__init__ state_size action_size seed fcs1_units fc2_units w2 /\
  exists c : Critic.t,
    fst (Critic.__init__ state_size action_size seed fcs1_units fc2_units w1) = inr c /\
    Critic.built state_size action_size fcs1_units fc2_units c /\
    Critic.bn1 c = BatchNorm1d_new fcs1_units /\
    training (Critic.bn1 c) = true.
Proof.
  split.
  - unfold Critic.__init__.
    now rewrite (bind_ok _ _ _ (seeded_world seed w1)), (bind_ok _ _ _ (seeded_world seed w2)).
  - destruct (Critic_init_result state_size action_size seed fcs1_units fc2_units w1)
      as (l1 & l2 & l3 & g1 & g2 & g3 & B1 & B2 & B3 & E).
    eexists. split; [exact E |]. split; [| split; reflexivity].
    unfold Critic.built, batchnorm_wf.
    cbn [Critic.fcs1 Critic.bn1 Critic.fc2 Critic.fc3 BatchNorm1d_new num_features
         bn_weight bn_bias running_mean running_var].
    rewrite !repeat_length.
    pose proof (refill_built_layer (- lim l1) (lim l1) g1 B1).
    pose proof (refill_built_layer (- lim l2) (lim l2) g2 B2).
    pose proof (refill_built_layer (- (3 / 1000)) (3 / 1000) g3 B3).
    tauto.
Qed.

(** X10. A freshly constructed Actor maps a state of shape N x state_size to
    a tensor of shape N x action_size.  A freshly constructed Critic, being
    in training mode, maps N states and N actions of the constructed sizes
    to a tensor of shape N x 1 when N is not 1, and fails with the
    single-sample error of batch normalization when N is 1. *)
Theorem fresh_networks_forward
    (state_size action_size : nat) (seed : Z) (units1 units2 : nat) (w : World unit)
    (state action : Tensor) :
  tensor_wf state -> tensor_wf action ->
  dim1 state = state_size -> dim1 action = action_size -> dim0 action = dim0 state ->
  (exists (a : Actor.t) (out : Tensor),
      fst (Actor.__init__ state_size action_size seed units1 units2 w) = inr a /\
      Actor.forward state a = (inr out, a) /\
      size out = [dim0 state; action_size] /\ tensor_wf out) /\
  (exists c : Critic.t,
      fst (Critic.__init__ state_size action_size seed units1 units2 w) = inr c /\
      (dim0 state = 1%nat ->
       fst (Critic.forward state action c) = inl SingleValuePerChannel) /\
      (dim0 state <> 1%nat ->
       exists q : Tensor,
         fst (Critic.forward state action c) = inr q /\
         size q = [dim0 state; 1%nat] /\ tensor_wf q)).
Proof.
  intros Ws Wa Hs Ha Hn. split.
  - destruct (Actor_init_built state_size action_size seed units1 units2 w) as (a & E & B).
    exists a, (Actor_formula a state). split; [exact E |].
    split; [exact (Actor_forward_ok B state Hs) |]. exact (Actor_formula_shape B Ws).
  - destruct (Critic_init_built state_size action_size seed units1 units2 w)
      as (c & E & B & T).
    exists c. split; [exact E |]. split.
    + intros H1. rewrite (Critic_forward_fails B state action) by tauto.
      unfold Critic_error. now rewrite T, H1, (proj2 (Nat.eqb_eq _ _) Hs).
    + intros H1. exists (Critic_formula c state action).
      rewrite (Critic_forward_ok B Ws Wa Hs Ha Hn (fun _ => H1)).
      split; [reflexivity |]. exact (Critic_formula_shape B Ws Wa Hn).
Qed.

End FreshNetworks.

Lemma fresh_networks_forward_witness :
  exists (a : Actor.t) (out : Tensor),
    fst (Actor.__init__ (rng := lcg) 1 1 2 256 128
           (mkWorld (rng := lcg) tt (manual_seed (RNG := lcg) 0))) = inr a /\
    Actor.forward batch_2 a = (inr out, a) /\
    size out = [2%nat; 1%nat] /\ tensor_wf out.
Proof.
  exact (proj1 (@fresh_networks_forward lcg 1 1 2 256 128
                  (mkWorld (rng := lcg) tt (manual_seed (RNG := lcg) 0))
                  batch_2 batch_2 batch_2_wf batch_2_wf eq_refl eq_refl eq_refl)).
Defined.

(** ** What Critic.forward changes *)

Section Frames.
Context {S : Type} (R : S -> S -> Prop).
Hypothesis R_refl : forall s, R s s.
Hypothesis R_trans : forall s1 s2 s3, R s1 s2 -> R s2 s3 -> R s1 s3.

Lemma stays_ret {A} (a : A) : stays R (ret a).
Proof. intros s. apply R_refl. Qed.

Lemma stays_raise {A} (e : error) : stays R (@raise S A e).
Proof. intros s. apply R_refl. Qed.

Lemma stays_bind {A B} (m : M S A) (k : A -> M S B) :
  stays R m -> (forall a, stays R (k a)) -> stays R (bind m k).
Proof.
  intros Hm Hk s. unfold bind. specialize (Hm s).
  destruct (m s) as [[e | a] s']; cbn [snd] in *; [exact Hm |].
  exact (R_trans Hm (Hk a s')).
Qed.

Lemma stays_Linear_forward (layer : Lens S Linear) (input : Tensor) :
  stays R (Linear_forward layer input).
Proof.
  intros s. unfold Linear_forward, bind, gets.
  destruct (Nat.eqb _ _); apply R_refl.
Qed.

Lemma stays_cat_dim1 (a b : Tensor) : stays R (@cat_dim1 S a b).
Proof. intros s. unfold cat_dim1. destruct (Nat.eqb _ _); apply R_refl. Qed.

End Frames.

Lemma set_running_same (bn : BatchNorm1d) :
  set_running (running_mean bn) (running_var bn) bn = bn.
Proof. now destruct bn. Qed.

Lemma only_running_refl (c : Critic.t) : only_running_statistics_differ c c.
Proof.
  repeat split; try reflexivity.
  exists (running_mean (Critic.bn1 c)), (running_var (Critic.bn1 c)).
  split; [now rewrite set_running_same |]. intros (_ & _ & H1 & H2). now split.
Qed.

Lemma only_running_trans (c1 c2 c3 : Critic.t) :
  only_running_statistics_differ c1 c2 -> only_running_statistics_differ c2 c3 ->
  only_running_statistics_differ c1 c3.
Proof.
  intros (A1 & A2 & A3 & (rm & rv & Ab & Al) & Ae) (B1 & B2 & B3 & (rm' & rv' & Bb & Bl) & Be).
  split; [congruence |]. split; [congruence |]. split; [congruence |]. split.
  - exists rm', rv'. split; [rewrite Bb, Ab; reflexivity |].
    intros W. destruct (Al W) as [L1 L2].
    assert (W2 : batchnorm_wf (Critic.bn1 c2)).
    { rewrite Ab. destruct W as (W1 & W2' & _). now repeat split. }
    destruct (Bl W2) as [M1 M2]. rewrite Ab in M1, M2. now split.
  - intros T. specialize (Ae T). subst c2. now apply Be.
Qed.

Lemma blend_length (m : R) (old new : list R) :
  length (blend m old new) = Nat.min (length old) (length new).
Proof. unfold blend. now rewrite length_map, length_combine. Qed.

Lemma per_feature_length (bn : BatchNorm1d) (f : list R -> R) (x : Tensor) :
  length (per_feature bn f x) = num_features bn.
Proof. unfold per_feature. now rewrite length_map, length_seq. Qed.

Lemma stays_bn1 (x : Tensor) :
  stays only_running_statistics_differ (BatchNorm1d_forward Critic.bn1_ x).
Proof.
  intros c. unfold BatchNorm1d_forward, bind, gets, modify. cbn [get Critic.bn1_].
  destruct (training (Critic.bn1 c)) eqn:T.
  - destruct (Nat.eqb (dim0 x) 1); [apply only_running_refl |].
    destruct (negb _); [apply only_running_refl |].
    cbn [snd set Critic.bn1_]. repeat split; cbn [Critic.fcs1 Critic.fc2 Critic.fc3 Critic.bn1].
    + eexists. eexists. split; [reflexivity |].
      intros (_ & _ & H1 & H2). rewrite !blend_length, !per_feature_length. lia.
    + rewrite T. discriminate.
  - destruct (negb _); apply only_running_refl.
Qed.

Lemma Critic_forward_stays (state action : Tensor) :
  stays only_running_statistics_differ (Critic.forward state action).
Proof.
  unfold Critic.forward.
  repeat first
    [ apply stays_Linear_forward; exact only_running_refl
    | apply stays_cat_dim1; exact only_running_refl
    | apply stays_bn1
    | apply stays_ret; exact only_running_refl
    | apply stays_bind; [exact only_running_trans | | intros ?; cbv zeta] ].
Qed.

(** X11. Whatever its inputs, and whether it returns or raises,
    [Critic.forward] leaves the three linear layers as they are and, of the
    normalization layer, changes at most the running mean and the running
    variance: its scale, shift, constants and mode are unchanged, and a
    Critic with the shapes of its constructor keeps them. *)
Theorem Critic_forward_changes_only_running_statistics
    (c : Critic.t) (state action : Tensor) :
  let c' := snd (Critic.forward state action c) in
  Critic.fcs1 c' = Critic.fcs1 c /\
  Critic.fc2 c' = Critic.fc2 c /\
  Critic.fc3 c' = Critic.fc3 c /\
  num_features (Critic.bn1 c') = num_features (Critic.bn1 c) /\
  bn_weight (Critic.bn1 c') = bn_weight (Critic.bn1 c) /\
  bn_bias (Critic.bn1 c') = bn_bias (Critic.bn1 c) /\
  eps (Critic.bn1 c') = eps (Critic.bn1 c) /\
  momentum (Critic.bn1 c') = momentum (Critic.bn1 c) /\
  training (Critic.bn1 c') = training (Critic.bn1 c) /\
  forall state_size action_size fcs1_units fc2_units : nat,
    Critic.built state_size action_size fcs1_units fc2_units c ->
    Critic.built state_size action_size fcs1_units fc2_units c'.
Proof.
  cbv zeta. destruct (Critic_forward_stays state action c)
    as (F1 & F2 & F3 & (rm & rv & Eb & Lb) & _).
  rewrite F1, F2, F3, Eb. do 9 (split; [reflexivity |]).
  intros ss acs u1 u2 (W1 & I1 & O1 & Wb & Nb & W2 & I2 & O2 & W3 & I3 & O3).
  destruct (Lb Wb) as [L1 L2]. destruct Wb as (Wg & Wh & _).
  unfold Critic.built. rewrite F1, F2, F3, Eb.
  unfold batchnorm_wf. cbn [set_running num_features bn_weight bn_bias running_mean running_var].
  repeat split; first [assumption | apply W1 | apply W2 | apply W3].
Qed.

(** X12. In evaluation mode [Critic.forward] changes nothing at all,
    whatever its inputs and whether it returns or raises. *)
Theorem Critic_forward_eval_mode_is_pure (c : Critic.t) (state action : Tensor) :
  training (Critic.bn1 c) = false ->
  snd (Critic.forward state action c) = c.
Proof.
  intros T. destruct (Critic_forward_stays state action c) as (_ & _ & _ & _ & E).
  exact (E T).
Qed.

Lemma Critic_forward_eval_mode_is_pure_witness :
  snd (Critic.forward batch_2 batch_2 critic_1_eval) = critic_1_eval /\
  snd (Critic.forward batch_1 batch_2 critic_1_eval) = critic_1_eval.
Proof.
  split; apply Critic_forward_eval_mode_is_pure; reflexivity.
Defined.

(** X13. A call of [Critic.forward] that fails after batch normalization is
    not without effect: in training mode, on a state of the right feature
    size whose batch size is not 1, an action whose batch size or feature
    size does not fit raises a dimension-mismatch error, and the running
    statistics have been updated by then. *)
Theorem Critic_forward_failure_keeps_statistics_update
    (state_size action_size fcs1_units fc2_units : nat) (c : Critic.t)
    (state action : Tensor) :
  Critic.built state_size action_size fcs1_units fc2_units c ->
  training (Critic.bn1 c) = true ->
  dim1 state = state_size -> dim0 state <> 1%nat ->
  dim0 action <> dim0 state \/ dim1 action <> action_size ->
  Critic.forward state action c =
  (inl ShapeMismatch,
   Critic.mk (Critic.fcs1 c)
             (batchnorm_after (Critic.bn1 c) (apply_layer (Critic.fcs1 c) state))
             (Critic.fc2 c) (Critic.fc3 c)).
Proof.
  intros B T Hs H1 Bad.
  pose proof B as (W1 & I1 & O1 & Wb & Nb & W2 & I2 & O2 & W3 & I3 & O3).
  unfold Critic.forward.
  next_ok (Linear_forward_ok Critic.fcs1_); [| exact W1 | cbn; congruence].
  next_ok (BatchNorm1d_forward_ok Critic.bn1_); [| cbn; congruence | intros _; exact H1].
  cbn [get Critic.fcs1_ Critic.bn1_].
  destruct (after_batchnorm_fields B (apply_layer (Critic.fcs1 c) state))
    as (F1 & F2 & F3 & Fc).
  cbv zeta in F1, F2, F3, Fc. rewrite <- Fc.
  set (c' := if training (Critic.bn1 c) then _ else c) in *.
  destruct (Nat.eq_dec (dim0 state) (dim0 action)) as [E | E].
  2:{ next_err (@cat_dim1_err Critic.t); [reflexivity |].
      cbn [relu dim0]. now rewrite (proj1 (proj2 (batchnorm_rows _ _))). }
  next_ok (@cat_dim1_ok Critic.t).
  2:{ cbn [relu dim0]. now rewrite (proj1 (proj2 (batchnorm_rows _ _))). }
  assert (Ha : dim1 action <> action_size) by (destruct Bad; congruence).
  next_err (Linear_forward_err Critic.fc2_); [reflexivity | |].
  - cbn [get Critic.fc2_]. now rewrite F2.
  - cbn [concat relu dim1 get Critic.fc2_].
    rewrite (proj2 (proj2 (batchnorm_rows _ _))), F2, I2. cbn [apply_layer dim1].
    rewrite O1. lia.
Qed.

(** Two states against one action through [critic_1]: the call fails, and
    the running mean has moved from 0 to 3/20. *)
Lemma Critic_forward_failure_keeps_statistics_update_witness :
  fst (Critic.forward batch_2 batch_1 critic_1) = inl ShapeMismatch /\
  running_mean (Critic.bn1 critic_1) = [0] /\
  running_mean (Critic.bn1 (snd (Critic.forward batch_2 batch_1 critic_1))) = [3 / 20].
Proof.
  rewrite (@Critic_forward_failure_keeps_statistics_update 1 1 1 1 critic_1 batch_2 batch_1
             critic_1_built eq_refl eq_refl).
  - split; [reflexivity |]. split; [reflexivity |].
    cbn [snd Critic.bn1]. unfold batchnorm_after, per_feature, blend, mean, column,
      apply_layer, affine, total.
    cbn [critic_1 Critic.bn1 Critic.fcs1 BatchNorm1d_new training set_running running_mean
         momentum num_features repeat seq map combine data batch_2 weight bias inner
         fst snd nth length fold_right INR].
    f_equal. lra.
  - cbn [batch_2 dim0]. discriminate.
  - left. cbn [batch_1 batch_2 dim0]. discriminate.
Defined.

(** X14. In evaluation mode the batch dimension of [Critic.forward] is
    independent per row: row [i] of the result on a batch is the result on
    the batch made of row [i] of the state and row [i] of the action alone. *)
Theorem Critic_forward_eval_rowwise
    (state_size action_size fcs1_units fc2_units : nat) (c : Critic.t)
    (state action : Tensor) (i : nat) :
  Critic.built state_size action_size fcs1_units fc2_units c ->
  training (Critic.bn1 c) = false ->
  tensor_wf state -> tensor_wf action ->
  dim1 state = state_size -> dim1 action = action_size ->
  dim0 action = dim0 state -> (i < dim0 state)%nat ->
  exists q : Tensor,
    Critic.forward state action c = (inr q, c) /\
    Critic.forward (row_of state i) (row_of action i) c
    = (inr (mkTensor 1 1 [nth i (data q) []]), c).
Proof.
  intros B T Ws Wa Hs Ha Hn Hi.
  assert (Same : forall x, Critic.mk (Critic.fcs1 c) (batchnorm_after (Critic.bn1 c) x)
                                     (Critic.fc2 c) (Critic.fc3 c) = c).
  { intros x. unfold batchnorm_after. rewrite T. now destruct c. }
  assert (NoT : forall n : nat, training (Critic.bn1 c) = true -> n <> 1%nat)
    by (intros n X; rewrite T in X; discriminate).
  exists (Critic_formula c state action). split.
  - rewrite (Critic_forward_ok B Ws Wa Hs Ha Hn (NoT _)). now rewrite Same.
  - assert (Wsi : tensor_wf (row_of state i)).
    { destruct Ws as [Hr Hc]. split; [reflexivity |]. constructor; [| constructor].
      cbn [row_of dim1]. rewrite Forall_forall in Hc. apply Hc, nth_In. now rewrite Hr. }
    assert (Wai : tensor_wf (row_of action i)).
    { destruct Wa as [Hr Hc]. split; [reflexivity |]. constructor; [| constructor].
      cbn [row_of dim1]. rewrite Forall_forall in Hc. apply Hc, nth_In. rewrite Hr. lia. }
    rewrite (@Critic_forward_ok _ _ _ _ c B (row_of state i) (row_of action i)
               Wsi Wai Hs Ha eq_refl (NoT _)).
    rewrite Same. f_equal. f_equal.
    destruct B as (_ & _ & _ & _ & _ & _ & _ & _ & _ & _ & O3).
    destruct Ws as [Hr _]. destruct Wa as [Har _].
    unfold Critic_formula, batchnorm, relu, concat, apply_layer, row_of.
    rewrite T. cbn [data dim0 dim1 map combine]. rewrite O3. do 2 f_equal.
    rewrite !map_map.
    rewrite (@nth_map_lt _ _ _ _ i ([], []) []).
    2:{ rewrite length_combine, length_map. lia. }
    rewrite combine_nth by (rewrite length_map; lia).
    rewrite (@nth_map_lt _ _ _ (data state) i [] []) by lia.
    reflexivity.
Qed.

Lemma Critic_forward_eval_rowwise_witness :
  exists q : Tensor,
    Critic.forward batch_2 batch_2 critic_1_eval = (inr q, critic_1_eval) /\
    Critic.forward (row_of batch_2 1) (row_of batch_2 1) critic_1_eval
    = (inr (mkTensor 1 1 [nth 1 (data q) []]), critic_1_eval).
Proof.
  apply (@Critic_forward_eval_rowwise 1 1 1 1 critic_1_eval batch_2 batch_2 1%nat).
  - exact critic_1_eval_built.
  - reflexivity.
  - exact batch_2_wf.
  - exact batch_2_wf.
  - reflexivity.
  - reflexivity.
  - reflexivity.
  - cbn [batch_2 dim0]. lia.
Defined.
